(** * Hello.py: word-frequency pipeline and its presentation adapters

    A shallow embedding of [src/Hello.py].  Python strings are sequences of
    Unicode code points, Python dictionaries are insertion-ordered maps,
    Python floats are binary64 numbers given by their exact values, and the
    Streamlit calls are recorded as a log of display events next to a result
    that is either a value or a raised exception. *)

From Stdlib Require Import List Bool Arith ZArith NArith Lia.
From Stdlib Require Import QArith Qround Qabs Qpower Lqa.
From Stdlib Require Import Ascii String Permutation Sorted.
Import ListNotations.

Set Implicit Arguments.

Local Open Scope Z_scope.

(* ------------------------------------------------------------------ *)
(** ** Python strings *)

Module PyStr.

(** A character is a Unicode code point, a [str] a sequence of them:
    [len] counts code points, not bytes. *)
Definition char := N.
Definition str := list char.
Definition bytes := list Byte.byte.

Definition len (s : str) : Z := Z.of_nat (List.length s).

Definition str_eq_dec : forall a b : str, {a = b} + {a <> b} :=
  list_eq_dec N.eq_dec.

Definition eqb (a b : str) : bool := if str_eq_dec a b then true else false.

(** ASCII literals, for examples. *)
Definition lit (s : string) : str := map N_of_ascii (list_ascii_of_string s).

End PyStr.

Import PyStr.

(* ------------------------------------------------------------------ *)
(** ** Python lists: [sum], slices, and the stable sort *)

Module PyList.

Section Lists.
Variable A : Type.

(** [sum(l)]: the running total starts at 0 and adds from the left. *)
Definition sum (l : list Z) : Z := fold_left Z.add l 0.

(** [l[:stop]]: a negative [stop] counts from the end, and both ends are
    clamped to the list. *)
Definition slice_to (l : list A) (stop : Z) : list A :=
  let n := Z.of_nat (List.length l) in
  let stop' := if stop <? 0 then Z.max 0 (stop + n) else Z.min stop n in
  firstn (Z.to_nat stop') l.

(** [sorted(l, key=key, reverse=True)].  Python's sort is stable and
    [reverse=True] keeps elements with equal keys in their original order, which
    determines the result: descending keys, ties in input order.  Each
    element is put in front of the already sorted later elements, behind those
    with a strictly larger key only. *)
Fixpoint insert_desc (key : A -> Z) (x : A) (l : list A) : list A :=
  match l with
  | [] => [x]
  | y :: l' => if key x <? key y then y :: insert_desc key x l' else x :: l
  end.

Definition sorted_desc (key : A -> Z) (l : list A) : list A :=
  fold_right (insert_desc key) [] l.

(** Descending order of keys. *)
Definition desc (key : A -> Z) (a b : A) : Prop := key b <= key a.

End Lists.

End PyList.

(* ------------------------------------------------------------------ *)
(** ** Python dictionaries with [str] keys *)

Module PyDict.

Section Dict.
Variable V : Type.

(** A [dict] iterates in insertion order, so it is the list of its items in
    that order; assigning to a key that is present keeps its position. *)
Definition dict := list (str * V).

Definition items (d : dict) : list (str * V) := d.
Definition keys (d : dict) : list str := map fst d.
Definition values (d : dict) : list V := map snd d.

Fixpoint get (d : dict) (k : str) : option V :=
  match d with
  | [] => None
  | (k', v) :: d' => if PyStr.eqb k' k then Some v else get d' k
  end.

(** [d.get(k, default)] *)
Definition get_default (d : dict) (k : str) (default : V) : V :=
  match get d k with Some v => v | None => default end.

(** [d[k] = v] *)
Fixpoint set (d : dict) (k : str) (v : V) : dict :=
  match d with
  | [] => [(k, v)]
  | (k', v') :: d' =>
      if PyStr.eqb k' k then (k', v) :: d' else (k', v') :: set d' k v
  end.

(** [dict(pairs)] *)
Definition of_items (pairs : list (str * V)) : dict :=
  fold_left (fun d kv => set d (fst kv) (snd kv)) pairs [].

(** Keys are unique. *)
Definition wf (d : dict) : Prop := NoDup (keys d).

End Dict.

End PyDict.

Abbreviation dict := PyDict.dict.

(* ------------------------------------------------------------------ *)
(** ** Exceptions and results *)

Inductive exn : Type :=
| ZeroDivisionError
| OverflowError
| KeyError (key : str)
| RequestException (msg : str)
| URLError (msg : str)
| OtherError (msg : str).

Inductive result (A : Type) : Type :=
| Ok (a : A)
| Raise (e : exn).

Arguments Ok {A} a.
Arguments Raise {A} e.

Definition rbind {A B} (m : result A) (f : A -> result B) : result B :=
  match m with Ok a => f a | Raise e => Raise e end.

(** A list comprehension whose element expression may raise: elements are
    evaluated left to right and the first exception ends it. *)
Fixpoint comprehension {A B} (f : A -> result B) (l : list A)
  : result (list B) :=
  match l with
  | [] => Ok []
  | x :: l' =>
      rbind (f x) (fun y => rbind (comprehension f l') (fun ys => Ok (y :: ys)))
  end.

(* ------------------------------------------------------------------ *)
(** ** The normalizer: [re.sub(pattern, '', content)] *)

Module Normalizer.

(** A bracket expression of [re]: a list of inclusive code-point ranges,
    complemented when it starts with [^]. *)
Record char_class := CharClass {
  negated : bool;
  ranges : list (char * char)
}.

Definition in_range (c : char) (r : char * char) : bool :=
  (fst r <=? c)%N && (c <=? snd r)%N.

Definition class_matches (cls : char_class) (c : char) : bool :=
  xorb (negated cls) (existsb (in_range c) (ranges cls)).

(** [re.sub] for a pattern that is one bracket expression: the matches, left
    to right, are the single characters of the class, and each is replaced by
    [repl]; the other characters are copied. *)
Definition re_sub (cls : char_class) (repl : str) (s : str) : str :=
  flat_map (fun c => if class_matches cls c then repl else [c]) s.

(** The compiled pattern of [get_web_content]: the complement of
    [a-z], [A-Z], [0-9] and U+4E00..U+9FA5. *)
Definition pattern : char_class :=
  CharClass true
    [ (97, 122); (65, 90); (48, 57); (0x4e00, 0x9fa5) ]%N.

Definition normalize (content : str) : str := re_sub pattern [] content.

(** The allowed alphabet, as the specification words it. *)
Definition latin_letter (c : char) : Prop :=
  (65 <= c <= 90)%N \/ (97 <= c <= 122)%N.
Definition digit (c : char) : Prop := (48 <= c <= 57)%N.
Definition cjk_ideograph (c : char) : Prop := (0x4e00 <= c <= 0x9fa5)%N.
Definition allowed (c : char) : Prop :=
  latin_letter c \/ digit c \/ cjk_ideograph c.

Definition allowedb (c : char) : bool :=
  ((65 <=? c) && (c <=? 90) || (97 <=? c) && (c <=? 122)
   || (48 <=? c) && (c <=? 57) || (0x4e00 <=? c) && (c <=? 0x9fa5))%N.

End Normalizer.

(* ------------------------------------------------------------------ *)
(** ** The frequency aggregator and the top-N selection *)

Module Aggregator.

(** The body of the counting loop of [get_web_content]. *)
Definition count_word (counts : dict Z) (word : str) : dict Z :=
  if len word =? 1 then counts
  else PyDict.set counts word (PyDict.get_default counts word 0 + 1).

(** [counts = {}] followed by the loop over [words]. *)
Definition word_counts (words : list str) : dict Z :=
  fold_left count_word words [].

(** [items = list(counts.items()); items.sort(key=lambda x: x[1], reverse=True)] *)
Definition sorted_items (counts : dict Z) : list (str * Z) :=
  PyList.sorted_desc snd (PyDict.items counts).

(** [[items[i][0] for i in range(min(20, len(items)))]] and the same for
    [items[i][1]]; the indices are within the list, so no lookup fails. *)
Definition top_words (items : list (str * Z)) : list str :=
  map (fun i => fst (nth i items ([], 0)))
      (seq 0 (Nat.min 20 (List.length items)))%nat.

Definition top_counts (items : list (str * Z)) : list Z :=
  map (fun i => snd (nth i items ([], 0)))
      (seq 0 (Nat.min 20 (List.length items)))%nat.

Definition get_top_counts (counts : dict Z) (num : Z) : dict Z :=
  let sorted_counts := PyList.sorted_desc snd (PyDict.items counts) in
  PyDict.of_items (PyList.slice_to sorted_counts num).

(** A frequency table as the data model describes it: unique keys and
    positive counts. *)
Definition frequency_table (table : dict Z) : Prop :=
  PyDict.wf table /\ Forall (fun kv => 0 < snd kv) table.

Definition has_count (c : Z) (kv : str * Z) : bool := snd kv =? c.

(** The tokens the loop counts. *)
Definition counted (w : str) : bool := negb (len w =? 1).

End Aggregator.

(* ------------------------------------------------------------------ *)
(** ** Python floats *)

Module Float.

(** A [float] is a binary64 number, given by its exact value, an infinity
    or a NaN.  The two zeros are not told apart: they are equal in Python. *)
Inductive float : Type :=
| Finite (q : Q)
| Inf (negative : bool)
| NaN.

(** Rounding to the nearest integer, ties to the even one. *)
Definition round_half_even (x : Q) : Z :=
  let n := Qfloor x in
  match (x - inject_Z n ?= 1 # 2)%Q with
  | Lt => n
  | Gt => n + 1
  | Eq => if Z.even n then n else n + 1
  end.

(** The integer part of the binary logarithm of a positive rational. *)
Definition Qlog2 (x : Q) : Z :=
  let k := Z.log2 (Qnum x) - Z.log2 (Zpos (Qden x)) in
  if Qle_bool (2 ^ k) x then k else k - 1.

(** The binary64 number nearest to a rational, ties to even: 53 significant
    bits, steps of [2 ^ -1074] at the least in the subnormal range, and an
    infinity from [2 ^ 1024] on. *)
Definition binary64 (x : Q) : float :=
  if Qeq_bool x 0 then Finite 0
  else
    let a := Qabs x in
    let e := Z.max (-1074) (Qlog2 a - 52) in
    let y := (inject_Z (round_half_even (a / 2 ^ e)) * 2 ^ e)%Q in
    if Qle_bool (2 ^ 1024) y then Inf (Qnum x <? 0)
    else Finite (Qred (if Qnum x <? 0 then - y else y)).

(** [x * y] on floats: the exact product rounded; an overflow gives an
    infinity, not an exception. *)
Definition fmul (x y : float) : float :=
  match x, y with
  | Finite a, Finite b => binary64 (a * b)
  | Finite a, Inf s | Inf s, Finite a =>
      if Qeq_bool a 0 then NaN else Inf (xorb s (Qnum a <? 0))
  | Inf s, Inf t => Inf (xorb s t)
  | _, _ => NaN
  end.

(** Half the relative step of binary64, and half its smallest step. *)
Definition unit_roundoff : Q := 1 # 9007199254740992.
Definition eta : Q := (2 ^ (-1075))%Q.

End Float.

Import Float.

(* ------------------------------------------------------------------ *)
(** ** Chart options and the funnel percentages *)

Module Charts.

(** The options documents handed to [st_echarts], one variant per adapter,
    with the data each one fills in. *)
Inductive chart : Type :=
| BarChart (words : list str) (counts : list Z)
| WordCloud (data : list (str * Z))
| PieChart (data : list (str * Z))
| LineChart (words : list str) (counts : list Z)
| ScatterChart (data : list (str * Z)) (words : list str)
| FunnelChart (data : list (str * float)) (legend : list str)
| AreaChart (words : list str) (counts : list Z).

(** [a / b] on integers: the exact quotient rounded once to binary64; it
    raises on a zero divisor and when the quotient is beyond the floats. *)
Definition truediv (a b : Z) : result float :=
  if b =? 0 then Raise ZeroDivisionError
  else
    match binary64 (inject_Z a / inject_Z b) with
    | Finite q => Ok (Finite q)
    | _ => Raise OverflowError
    end.

(** [round(x, 2)]: the exact value of [x] is rounded to 2 decimals, ties to
    even, and the decimal is converted back to the nearest float; infinities
    and NaN are returned as they are. *)
Definition round2 (x : float) : result float :=
  match x with
  | Finite q =>
      match binary64 (inject_Z (round_half_even (q * 100)) / 100) with
      | Finite y => Ok (Finite y)
      | _ => Raise OverflowError
      end
  | _ => Ok x
  end.

(** [round(count / total_count * 100, 2)] *)
Definition percentage (total_count count : Z) : result float :=
  rbind (truediv count total_count) (fun q => round2 (fmul q (Finite 100))).

(** The first two statements of [display_customized_chart]. *)
Definition funnel_data (top_counts : dict Z) (counts : list Z)
  : result (list (str * float)) :=
  let total_count := PyList.sum counts in
  comprehension
    (fun kv => rbind (percentage total_count (snd kv))
                     (fun value => Ok (fst kv, value)))
    (PyDict.items top_counts).

(** The percentage of one entry in exact arithmetic. *)
Definition share (total_count count : Z) : Q :=
  (inject_Z count / inject_Z total_count * 100)%Q.

(** How far a percentage of the chart can be from the exact one: half a
    hundredth from the rounding to 2 decimals, and [2 ^ -44] for the three
    roundings to binary64. *)
Definition tolerance : Q := (1 # 200) + (1 # 17592186044416).

Fixpoint Qsum (l : list Q) : Q :=
  match l with
  | [] => 0%Q
  | x :: l' => (x + Qsum l')%Q
  end.

End Charts.

Import Charts.

(* ------------------------------------------------------------------ *)
(** ** Streamlit output and the application *)

Module App.

(** The fixed texts the application writes. *)
Inductive message : Type :=
| ImagesHeader                 (* the heading above the images *)
| NoImages                     (* the page has no image *)
| ErrorOccurred (e : exn)      (* the text built from a caught exception *)
| ChooseFeature.               (* no feature is selected *)

(** What a script run puts on the page, in order. *)
Inductive event : Type :=
| Title
| StWrite (m : message)
| Warning (img_url : str) (e : exn)
| Image (image : bytes) (caption : str)
| EChart (options : chart).

(** A computation that displays events and then returns or raises; what was
    displayed before an exception stays displayed. *)
Definition ui (A : Type) : Type := (list event * result A)%type.

Definition ret {A} (a : A) : ui A := ([], Ok a).

Definition bind {A B} (m : ui A) (f : A -> ui B) : ui B :=
  match m with
  | (out, Ok a) => let (out', r) := f a in (out ++ out', r)
  | (out, Raise e) => (out, Raise e)
  end.

Definition lift {A} (r : result A) : ui A := ([], r).

Definition emit (e : event) : ui unit := ([e], Ok tt).

(** [try: body / except Exception as e: handler(e)] *)
Definition try_except {A} (body : ui A) (handler : exn -> ui A) : ui A :=
  match body with
  | (out, Ok a) => (out, Ok a)
  | (out, Raise e) => let (out', r) := handler e in (out ++ out', r)
  end.

Notation "x <- m ;; k" := (bind m (fun x => k))
  (at level 61, m at next level, right associativity).
Notation "m ;;; k" := (bind m (fun _ => k))
  (at level 61, right associativity).

(** [for x in l: body(x)] *)
Fixpoint for_each {A} (l : list A) (body : A -> ui unit) : ui unit :=
  match l with
  | [] => ret tt
  | x :: l' => body x ;;; for_each l' body
  end.

Definition st_echarts (options : chart) : ui unit := emit (EChart options).

Definition dict_data (top_counts : dict Z) : list (str * Z) :=
  PyDict.items top_counts.

Definition display_bar_chart (words : list str) (counts : list Z) : ui unit :=
  st_echarts (BarChart words counts).

Definition display_word_cloud (top_counts : dict Z) : ui unit :=
  st_echarts (WordCloud (dict_data top_counts)).

Definition display_pie_chart (top_counts : dict Z) : ui unit :=
  st_echarts (PieChart (dict_data top_counts)).

Definition display_line_chart (words : list str) (counts : list Z) : ui unit :=
  st_echarts (LineChart words counts).

Definition display_scatter_chart (top_counts : dict Z) (words : list str)
    (counts : list Z) : ui unit :=
  st_echarts (ScatterChart (dict_data top_counts) words).

Definition display_customized_chart (top_counts : dict Z) (words : list str)
    (counts : list Z) : ui unit :=
  data <- lift (funnel_data top_counts counts) ;;
  st_echarts (FunnelChart data words).

Definition display_area_chart (words : list str) (counts : list Z) : ui unit :=
  st_echarts (AreaChart words counts).

(** An HTTP response: [requests.get] returns one for every status the server
    answers with, and raises only when no response is obtained. *)
Record response := Response {
  status_code : Z;
  content : bytes
}.

(** An element of the parsed page, with its attributes. *)
Record tag := Tag {
  attrs : dict str
}.

(** [img['src']] *)
Definition tag_getitem (t : tag) (key : str) : result str :=
  match PyDict.get (attrs t) key with
  | Some v => Ok v
  | None => Raise (KeyError key)
  end.

(** The features of the sidebar's select box. *)
Inductive feature : Type :=
| ShowBar | ShowCloud | ShowPie | ShowLine
| ShowScatter | ShowFunnel | ShowArea | ShowImages.

Section Collaborators.

(** The libraries the application calls: HTTP, the HTML parser, the
    segmenter, the image download and the image widget.  The fetch, the
    parser, the text extraction and the segmenter can raise. *)
Variable soup : Type.
Variable requests_get : str -> result response.
Variable BeautifulSoup : bytes -> result soup.
Variable get_text : soup -> result str.
Variable find_all_img : soup -> list tag.
Variable lcut : str -> result (list str).
Variable urlopen_read : str -> result bytes.
Variable st_image : bytes -> str -> result unit.

(** [get_web_content] after the fetch: only [response.content] is read (the
    encoding set from [apparent_encoding] serves [response.text], which is
    not used). *)
Definition analyse (response : response)
  : result (dict Z * list str * list Z) :=
  rbind (BeautifulSoup (content response)) (fun soup0 =>
  rbind (get_text soup0) (fun content0 =>
  let new_content := Normalizer.normalize content0 in
  rbind (lcut new_content) (fun words =>
  let counts := Aggregator.word_counts words in
  let items := Aggregator.sorted_items counts in
  Ok (counts, Aggregator.top_words items, Aggregator.top_counts items)))).

Definition get_web_content (url : str)
  : result (dict Z * list str * list Z) :=
  rbind (requests_get url) analyse.

(** One turn of the loop of [display_images]: the lookup of [src] is outside
    the [try], the download and the display are inside. *)
Definition display_image (img : tag) : ui unit :=
  img_url <- lift (tag_getitem img (lit "src")) ;;
  try_except
    (image <- lift (urlopen_read img_url) ;;
     lift (st_image image img_url) ;;;
     emit (Image image img_url))
    (fun e => emit (Warning img_url e)).

(** What one image of the page leaves on the page. *)
Definition shows (img_url : str) (item : event) : Prop :=
  match urlopen_read img_url with
  | Raise e => item = Warning img_url e
  | Ok image =>
      match st_image image img_url with
      | Raise e => item = Warning img_url e
      | Ok _ => item = Image image img_url
      end
  end.

Definition display_images (page : soup) : ui unit :=
  let images := find_all_img page in
  if (0 <? List.length images)%nat then
    emit (StWrite ImagesHeader) ;;;
    for_each images display_image
  else
    emit (StWrite NoImages).

(** [BeautifulSoup(requests.get(url).content, 'html.parser')] followed by
    [display_images], inside their [try]. *)
Definition guarded_images (url : str) : ui unit :=
  try_except
    (page <- lift (rbind (requests_get url)
                         (fun r => BeautifulSoup (content r))) ;;
     display_images page)
    (fun e => emit (StWrite (ErrorOccurred e))).


(** The body of [if url:] in [run] after the call of [get_web_content]: the
    top-20 dictionary and the dispatch on the selected feature. *)
Definition show_selected (url : str) (selected_option : option feature)
    (counts : dict Z) (top_words : list str) (top_counts : list Z)
  : ui unit :=
  let top_20_counts := Aggregator.get_top_counts counts 20 in
  match selected_option with
  | Some ShowBar => display_bar_chart top_words top_counts
  | Some ShowCloud => display_word_cloud top_20_counts
  | Some ShowPie => display_pie_chart top_20_counts
  | Some ShowLine => display_line_chart top_words top_counts
  | Some ShowScatter =>
      display_scatter_chart top_20_counts top_words top_counts
  | Some ShowFunnel =>
      display_customized_chart top_20_counts top_words top_counts
  | Some ShowArea => display_area_chart top_words top_counts
  | Some ShowImages => guarded_images url
  | None => emit (StWrite ChooseFeature)
  end.

(** [run], given what the widgets return in this script run: the text of the
    input field, the selected feature (if any) and whether the button was
    pressed. *)
Definition run (url : str) (selected_option : option feature)
    (button : bool) : ui unit :=
  emit Title ;;;
  if button then
    if negb (PyStr.eqb url []) then
      r <- lift (get_web_content url) ;;
      let '(counts, top_words, top_counts) := r in
      show_selected url selected_option counts top_words top_counts
    else ret tt
  else ret tt.

End Collaborators.

(** Reading a log. *)
Definition is_chart (e : event) : bool :=
  match e with EChart _ => true | _ => false end.
Definition is_image (e : event) : bool :=
  match e with Image _ _ => true | _ => false end.
Definition is_warning (e : event) : bool :=
  match e with Warning _ _ => true | _ => false end.
Definition is_error_message (e : event) : bool :=
  match e with StWrite (ErrorOccurred _) => true | _ => false end.
Definition quiet (e : event) : bool := is_image e || is_warning e.

End App.

(* ------------------------------------------------------------------ *)
(** ** Collaborators for the examples *)

Module Fixture.

(** A parser that reads each byte as one character and keeps all of them as
    visible text, and a segmenter that returns the text as one token. *)
Definition soup := str.
Definition BeautifulSoup (markup : bytes) : result soup :=
  Ok (map Byte.to_N markup).
Definition get_text (page : soup) : result str := Ok page.
Definition lcut (text : str) : result (list str) :=
  Ok match text with [] => [] | _ => [text] end.

(** A server that answers every request with status 404 and a short body. *)
Definition not_found : App.response :=
  App.Response 404 (list_byte_of_string "Not Found").
Definition requests_get_404 (url : str) : result App.response := Ok not_found.

(** The same body served with status 200. *)
Definition found : App.response :=
  App.Response 200 (list_byte_of_string "Not Found").
Definition requests_get_200 (url : str) : result App.response := Ok found.

(** A page with three images, the second of which cannot be downloaded. *)
Definition img (src : string) : App.tag := App.Tag [ (lit "src", lit src) ].
Definition find_three_img (page : soup) : list App.tag :=
  [ img "a.png"; img "b.png"; img "c.png" ].
Definition urlopen_read (url : str) : result bytes :=
  if PyStr.eqb url (lit "b.png") then Raise (URLError (lit "unreachable"))
  else Ok (list_byte_of_string "PNG").
Definition st_image (image : bytes) (caption : str) : result unit := Ok tt.

(** The same page when the second image has no source. *)
Definition find_img_missing_src (page : soup) : list App.tag :=
  [ img "a.png"; App.Tag []; img "c.png" ].


(** A server that cannot be reached, and a parser that rejects the page. *)
Definition requests_get_down (url : str) : result App.response :=
  Raise (RequestException (lit "unreachable")).
Definition BeautifulSoup_rejects (markup : bytes) : result soup :=
  Raise (OtherError (lit "rejected markup")).

End Fixture.

(* ================================================================== *)
(** * Facts about the data model *)

Module PyStrFacts.

Lemma eqb_refl (a : str) : PyStr.eqb a a = true.
Proof. unfold PyStr.eqb. destruct (str_eq_dec a a); congruence. Qed.

Lemma eqb_eq (a b : str) : PyStr.eqb a b = true <-> a = b.
Proof. unfold PyStr.eqb. destruct (str_eq_dec a b); split; congruence. Qed.

Lemma eqb_neq (a b : str) : PyStr.eqb a b = false <-> a <> b.
Proof. unfold PyStr.eqb. destruct (str_eq_dec a b); split; congruence. Qed.

End PyStrFacts.

Module PyListFacts.

Lemma fold_add_shift (l : list Z) (a : Z) :
  fold_left Z.add l a = a + fold_left Z.add l 0.
Proof.
  revert a. induction l as [|x l IH]; intros a; simpl; [lia|].
  rewrite (IH (a + x)), (IH x). lia.
Qed.

Lemma sum_nil : PyList.sum [] = 0.
Proof. reflexivity. Qed.

Lemma sum_cons (x : Z) (l : list Z) : PyList.sum (x :: l) = x + PyList.sum l.
Proof. unfold PyList.sum. simpl. apply fold_add_shift. Qed.

Lemma sum_app (l1 l2 : list Z) :
  PyList.sum (l1 ++ l2) = PyList.sum l1 + PyList.sum l2.
Proof.
  induction l1 as [|x l1 IH]; simpl.
  - change (PyList.sum []) with 0. lia.
  - rewrite !sum_cons, IH. lia.
Qed.

Lemma sum_perm (l1 l2 : list Z) :
  Permutation l1 l2 -> PyList.sum l1 = PyList.sum l2.
Proof.
  induction 1; rewrite ?sum_cons in *; lia.
Qed.

Lemma sum_nonneg (l : list Z) : Forall (fun v => 0 <= v) l -> 0 <= PyList.sum l.
Proof.
  induction 1; [unfold PyList.sum; simpl|rewrite sum_cons]; lia.
Qed.

Lemma slice_to_nonneg (A : Type) (l : list A) (stop : Z) :
  0 <= stop -> PyList.slice_to l stop = firstn (Z.to_nat stop) l.
Proof.
  intros H. unfold PyList.slice_to.
  destruct (stop <? 0) eqn:E; [lia|].
  destruct (Z.min_spec stop (Z.of_nat (List.length l))) as [[Hlt ->]|[Hge ->]];
    [reflexivity|].
  rewrite Nat2Z.id, firstn_all. symmetry. apply firstn_all2. lia.
Qed.

Lemma slice_to_prefix (A : Type) (l : list A) (stop : Z) :
  exists k, PyList.slice_to l stop = firstn k l.
Proof. unfold PyList.slice_to. eexists. reflexivity. Qed.

Lemma slice_to_all (A : Type) (l : list A) (stop : Z) :
  Z.of_nat (List.length l) <= stop -> PyList.slice_to l stop = l.
Proof.
  intros H. rewrite slice_to_nonneg by lia. apply firstn_all2. lia.
Qed.

Section Sorting.
Variables (A : Type) (key : A -> Z).

Lemma insert_desc_perm (x : A) (l : list A) :
  Permutation (PyList.insert_desc key x l) (x :: l).
Proof.
  induction l as [|y l IH]; simpl; [reflexivity|].
  destruct (key x <? key y); [|reflexivity].
  rewrite IH. apply perm_swap.
Qed.

Lemma sorted_desc_perm (l : list A) :
  Permutation (PyList.sorted_desc key l) l.
Proof.
  induction l as [|x l IH]; simpl; [reflexivity|].
  rewrite insert_desc_perm. now constructor.
Qed.

Lemma insert_desc_sorted (x : A) (l : list A) :
  StronglySorted (PyList.desc key) l -> StronglySorted (PyList.desc key) (PyList.insert_desc key x l).
Proof.
  induction 1 as [|y l Hs IH Hy]; simpl.
  - repeat constructor.
  - destruct (key x <? key y) eqn:E.
    + constructor; [exact IH|].
      apply Forall_forall. intros z Hz.
      apply (Permutation_in _ (insert_desc_perm x l)) in Hz.
      destruct Hz as [<-|Hz].
      * unfold PyList.desc. lia.
      * rewrite Forall_forall in Hy. now apply Hy.
    + apply Z.ltb_ge in E.
      constructor; [now constructor|].
      constructor; [exact E|].
      eapply Forall_impl; [|exact Hy].
      unfold PyList.desc. intros. lia.
Qed.

Lemma sorted_desc_sorted (l : list A) :
  StronglySorted (PyList.desc key) (PyList.sorted_desc key l).
Proof.
  induction l as [|x l IH]; simpl; [constructor|].
  now apply insert_desc_sorted.
Qed.

(** Stability: the elements with a given key keep their input order. *)
Lemma insert_desc_filter (c : Z) (x : A) (l : list A) :
  filter (fun a => key a =? c) (PyList.insert_desc key x l)
  = filter (fun a => key a =? c) (x :: l).
Proof.
  induction l as [|y l IH]; simpl; [reflexivity|].
  destruct (key x <? key y) eqn:E; [|reflexivity].
  apply Z.ltb_lt in E. simpl. rewrite IH. simpl.
  destruct (key x =? c) eqn:Ex, (key y =? c) eqn:Ey; try reflexivity.
  apply Z.eqb_eq in Ex, Ey. lia.
Qed.

Lemma sorted_desc_stable (c : Z) (l : list A) :
  filter (fun a => key a =? c) (PyList.sorted_desc key l)
  = filter (fun a => key a =? c) l.
Proof.
  induction l as [|x l IH]; simpl; [reflexivity|].
  rewrite insert_desc_filter. simpl. now rewrite IH.
Qed.

End Sorting.

Lemma filter_firstn_prefix (A : Type) (p : A -> bool) (k : nat) (l : list A) :
  filter p l = filter p (firstn k l) ++ filter p (skipn k l).
Proof.
  rewrite <- filter_app, firstn_skipn. reflexivity.
Qed.

Lemma StronglySorted_prefix (A : Type) (R : A -> A -> Prop) (l1 l2 : list A) :
  StronglySorted R (l1 ++ l2) -> StronglySorted R l1.
Proof.
  induction l1 as [|a l1 IH]; simpl; intros H; [constructor|].
  apply StronglySorted_inv in H. destruct H as [Hs Hf].
  constructor; [now apply IH|].
  apply Forall_app in Hf. tauto.
Qed.

End PyListFacts.

Module PyDictFacts.

Import PyStrFacts.

Section DictFacts.
Variable V : Type.
Implicit Types (d : dict V) (k : str) (v : V).

Lemma get_None d k : PyDict.get d k = None <-> ~ In k (PyDict.keys d).
Proof.
  induction d as [|[k' v'] d IH]; simpl; [tauto|].
  destruct (PyStr.eqb k' k) eqn:E.
  - apply eqb_eq in E. split; [discriminate|tauto].
  - apply eqb_neq in E. rewrite IH. tauto.
Qed.

Lemma get_Some_In d k v : PyDict.get d k = Some v -> In (k, v) d.
Proof.
  induction d as [|[k' v'] d IH]; simpl; [discriminate|].
  destruct (PyStr.eqb k' k) eqn:E.
  - apply eqb_eq in E. intros [= ->]. left. now subst.
  - auto.
Qed.

Lemma get_set_same d k v : PyDict.get (PyDict.set d k v) k = Some v.
Proof.
  induction d as [|[k' v'] d IH]; simpl.
  - now rewrite eqb_refl.
  - destruct (PyStr.eqb k' k) eqn:E; simpl; rewrite E; auto.
Qed.

Lemma get_set_other d k k' v :
  k <> k' -> PyDict.get (PyDict.set d k v) k' = PyDict.get d k'.
Proof.
  intros Hne. induction d as [|[k0 v0] d IH]; simpl.
  - apply eqb_neq in Hne. now rewrite Hne.
  - destruct (PyStr.eqb k0 k) eqn:E; simpl; [|now rewrite IH].
    apply eqb_eq in E. subst k0.
    apply eqb_neq in Hne. now rewrite Hne.
Qed.

(** Assigning to a present key keeps the order of the keys; a new key goes
    last. *)
Lemma keys_set d k v :
  PyDict.keys (PyDict.set d k v)
  = if in_dec str_eq_dec k (PyDict.keys d) then PyDict.keys d
    else PyDict.keys d ++ [k].
Proof.
  induction d as [|[k' v'] d IH]; simpl; [reflexivity|].
  destruct (PyStr.eqb k' k) eqn:E; simpl.
  - apply eqb_eq in E. subst.
    destruct (str_eq_dec k k); [reflexivity|congruence].
  - apply eqb_neq in E. rewrite IH.
    destruct (str_eq_dec k' k); [congruence|].
    destruct (in_dec str_eq_dec k (PyDict.keys d)); reflexivity.
Qed.

Lemma wf_set d k v : PyDict.wf d -> PyDict.wf (PyDict.set d k v).
Proof.
  unfold PyDict.wf. rewrite keys_set.
  destruct (in_dec str_eq_dec k (PyDict.keys d)) as [Hin|Hnin]; [auto|].
  intros Hd. apply NoDup_app; [exact Hd|repeat constructor; simpl; tauto|].
  intros x Hx [<-|[]]. contradiction.
Qed.

Lemma set_absent d k v :
  ~ In k (PyDict.keys d) -> PyDict.set d k v = d ++ [(k, v)].
Proof.
  induction d as [|[k' v'] d IH]; simpl; [reflexivity|].
  intros Hn. destruct (PyStr.eqb k' k) eqn:E.
  - apply eqb_eq in E. tauto.
  - rewrite IH; tauto.
Qed.

(** [dict(pairs)] of pairs with distinct keys is the pairs, in order. *)
Lemma of_items_acc (acc pairs : list (str * V)) :
  NoDup (map fst (acc ++ pairs)) ->
  fold_left (fun d kv => PyDict.set d (fst kv) (snd kv)) pairs acc
  = acc ++ pairs.
Proof.
  revert acc. induction pairs as [|[k v] pairs IH]; intros acc Hnd; simpl.
  - now rewrite app_nil_r.
  - rewrite set_absent.
    + rewrite IH; rewrite <- app_assoc; simpl; auto.
    + rewrite map_app in Hnd. simpl in Hnd.
      apply NoDup_remove_2 in Hnd. intros Hin. apply Hnd.
      apply in_or_app. now left.
Qed.

Lemma of_items_wf (pairs : list (str * V)) :
  NoDup (map fst pairs) -> PyDict.of_items pairs = pairs.
Proof. intros H. unfold PyDict.of_items. now rewrite of_items_acc. Qed.

End DictFacts.

(** Replacing a count changes the total by the difference. *)
Lemma sum_values_set (d : dict Z) (k : str) (v : Z) :
  PyList.sum (PyDict.values (PyDict.set d k v))
  = PyList.sum (PyDict.values d) - PyDict.get_default d k 0 + v.
Proof.
  unfold PyDict.get_default.
  induction d as [|[k' v'] d IH]; simpl.
  - rewrite PyListFacts.sum_cons. change (PyList.sum []) with 0. lia.
  - destruct (PyStr.eqb k' k) eqn:E; simpl;
      rewrite !PyListFacts.sum_cons; [lia|].
    fold (PyDict.values d). fold (PyDict.values (PyDict.set d k v)).
    rewrite IH. lia.
Qed.

Lemma values_set_positive (d : dict Z) (k : str) (v : Z) :
  0 < v -> Forall (fun x => 0 < x) (PyDict.values d) ->
  Forall (fun x => 0 < x) (PyDict.values (PyDict.set d k v)).
Proof.
  intros Hv. induction d as [|[k' v'] d IH]; simpl; intros Hd.
  - repeat constructor. exact Hv.
  - inversion Hd; subst.
    destruct (PyStr.eqb k' k); simpl; constructor; auto.
Qed.

End PyDictFacts.

Module AggregatorFacts.

Import PyStrFacts PyDictFacts.
Import Aggregator.

Lemma word_counts_snoc (words : list str) (w : str) :
  Aggregator.word_counts (words ++ [w])
  = Aggregator.count_word (Aggregator.word_counts words) w.
Proof. unfold Aggregator.word_counts. now rewrite fold_left_app. Qed.

Lemma word_counts_wf (words : list str) :
  PyDict.wf (Aggregator.word_counts words).
Proof.
  induction words as [|w words IH] using rev_ind; [constructor|].
  rewrite word_counts_snoc. unfold Aggregator.count_word.
  destruct (len w =? 1); [exact IH|now apply wf_set].
Qed.

(** The table maps each word that is not a single character to its number
    of occurrences, and has no entry for any other word. *)
Lemma word_counts_get (words : list str) (w : str) :
  PyDict.get (Aggregator.word_counts words) w
  = if counted w && (0 <? count_occ str_eq_dec words w)%nat
    then Some (Z.of_nat (count_occ str_eq_dec words w)) else None.
Proof.
  induction words as [|x words IH] using rev_ind.
  - simpl. now rewrite andb_false_r.
  - rewrite word_counts_snoc, count_occ_app. simpl.
    unfold Aggregator.count_word. unfold counted in *.
    destruct (str_eq_dec x w) as [->|Hne].
    + destruct (len w =? 1) eqn:L; simpl in *.
      * exact IH.
      * rewrite get_set_same. unfold PyDict.get_default. rewrite IH.
        replace (0 <? count_occ str_eq_dec words w + 1)%nat with true
          by (symmetry; apply Nat.ltb_lt; lia).
        destruct (0 <? count_occ str_eq_dec words w)%nat eqn:C; f_equal.
        -- lia.
        -- apply Nat.ltb_ge in C. lia.
    + rewrite Nat.add_0_r.
      destruct (len x =? 1); [exact IH|].
      rewrite get_set_other by exact Hne. exact IH.
Qed.

Lemma word_counts_sum (words : list str) :
  PyList.sum (PyDict.values (Aggregator.word_counts words))
  = Z.of_nat (List.length (filter counted words)).
Proof.
  induction words as [|x words IH] using rev_ind; [reflexivity|].
  rewrite word_counts_snoc, filter_app, length_app, Nat2Z.inj_add.
  simpl. unfold Aggregator.count_word, counted at 2.
  destruct (len x =? 1); simpl; [lia|].
  rewrite sum_values_set. lia.
Qed.

Lemma word_counts_positive (words : list str) :
  Forall (fun v => 0 < v) (PyDict.values (Aggregator.word_counts words)).
Proof.
  induction words as [|x words IH] using rev_ind; [constructor|].
  rewrite word_counts_snoc. unfold Aggregator.count_word.
  destruct (len x =? 1); [exact IH|].
  apply values_set_positive; [|exact IH].
  unfold PyDict.get_default.
  destruct (PyDict.get (Aggregator.word_counts words) x) as [v|] eqn:G; [|lia].
  apply get_Some_In in G.
  rewrite Forall_forall in IH.
  specialize (IH v (in_map snd _ _ G)). simpl in IH. lia.
Qed.

Lemma word_counts_keys (words : list str) (k : str) :
  In k (PyDict.keys (Aggregator.word_counts words)) <->
  In k words /\ len k <> 1.
Proof.
  pose proof (word_counts_get words k) as G.
  pose proof (get_None (Aggregator.word_counts words) k) as N.
  pose proof (count_occ_In str_eq_dec words k) as C.
  unfold counted in G.
  destruct (len k =? 1) eqn:L; simpl in G.
  - apply Z.eqb_eq in L. split; [|tauto]. intros H. apply N in G. tauto.
  - apply Z.eqb_neq in L.
    destruct (0 <? count_occ str_eq_dec words k)%nat eqn:E.
    + apply Nat.ltb_lt in E. split; intros _.
      * split; [apply C; lia|exact L].
      * destruct (in_dec str_eq_dec k (PyDict.keys (Aggregator.word_counts words)))
          as [H|H]; [exact H|]. apply N in H. congruence.
    + apply Nat.ltb_ge in E. apply N in G. split; [tauto|].
      intros [H _]. apply C in H. lia.
Qed.

End AggregatorFacts.

Module TopFacts.

Import PyListFacts PyDictFacts.

Lemma NoDup_firstn (A : Type) (k : nat) (l : list A) :
  NoDup l -> NoDup (firstn k l).
Proof.
  intros H. rewrite <- (firstn_skipn k l) in H.
  now apply NoDup_app_remove_r in H.
Qed.

Lemma sorted_keys_unique (table : dict Z) :
  PyDict.wf table -> NoDup (map fst (PyList.sorted_desc snd table)).
Proof.
  intros H. eapply Permutation_NoDup; [|exact H].
  apply Permutation_map. symmetry. apply sorted_desc_perm.
Qed.

(** On a dictionary, rebuilding a [dict] from the sliced items changes
    nothing: the keys are distinct. *)
Lemma get_top_counts_slice (table : dict Z) (num : Z) :
  PyDict.wf table ->
  Aggregator.get_top_counts table num
  = PyList.slice_to (PyList.sorted_desc snd table) num.
Proof.
  intros H. unfold Aggregator.get_top_counts, PyDict.items.
  apply of_items_wf.
  destruct (slice_to_prefix (PyList.sorted_desc snd table) num) as [k ->].
  rewrite <- firstn_map. apply NoDup_firstn. now apply sorted_keys_unique.
Qed.

Lemma nth_range_firstn (A B : Type) (f : A -> B) (d : A) (k : nat) (l : list A) :
  map (fun i => f (nth i l d)) (seq 0 (Nat.min k (List.length l)))
  = map f (firstn k l).
Proof.
  revert k. induction l as [|a l IH]; intros k.
  - rewrite Nat.min_0_r, firstn_nil. reflexivity.
  - destruct k as [|k]; [reflexivity|].
    simpl. f_equal. rewrite <- seq_shift, map_map. apply IH.
Qed.

(** The two lists [get_web_content] returns are the columns of the first 20
    sorted items. *)
Lemma top_words_firstn (items : list (str * Z)) :
  Aggregator.top_words items = map fst (firstn 20 items).
Proof. apply nth_range_firstn. Qed.

Lemma top_counts_firstn (items : list (str * Z)) :
  Aggregator.top_counts items = map snd (firstn 20 items).
Proof. apply nth_range_firstn. Qed.

Lemma sum_firstn_le (k : nat) (l : list Z) :
  Forall (fun v => 0 <= v) l -> PyList.sum (firstn k l) <= PyList.sum l.
Proof.
  intros H. rewrite <- (firstn_skipn k l) at 2. rewrite sum_app.
  assert (0 <= PyList.sum (skipn k l)); [|lia].
  apply sum_nonneg. rewrite <- (firstn_skipn k l) in H.
  now apply Forall_app in H.
Qed.

End TopFacts.

Module NormalizerFacts.

Import Normalizer.

Lemma allowedb_spec (c : char) : allowedb c = true <-> allowed c.
Proof.
  unfold allowedb, allowed, latin_letter, digit, cjk_ideograph.
  rewrite !orb_true_iff, !andb_true_iff, !N.leb_le. tauto.
Qed.

(** The compiled pattern matches exactly the characters outside the allowed
    alphabet. *)
Lemma pattern_matches_disallowed (c : char) :
  class_matches pattern c = negb (allowedb c).
Proof.
  unfold class_matches, pattern, allowedb, in_range; simpl.
  rewrite orb_false_r.
  destruct (97 <=? c)%N, (c <=? 122)%N, (65 <=? c)%N, (c <=? 90)%N,
           (48 <=? c)%N, (c <=? 57)%N, (0x4e00 <=? c)%N, (c <=? 0x9fa5)%N;
    reflexivity.
Qed.

Lemma normalize_filter (text : str) :
  normalize text = filter allowedb text.
Proof.
  unfold normalize, re_sub.
  induction text as [|c text IH]; simpl; [reflexivity|].
  rewrite pattern_matches_disallowed, IH.
  destruct (allowedb c); reflexivity.
Qed.

End NormalizerFacts.

Unset Implicit Arguments.

(* ================================================================== *)
(** * The normalizer *)

(** C5: [normalize text] is exactly the subsequence of [text] made of the
    characters in [A-Za-z0-9] or U+4E00..U+9FA5; every other character is
    deleted and nothing is put in its place, so no disallowed character
    remains. *)
Theorem normalize_keeps_exactly_allowed (text : str) :
  Normalizer.normalize text = filter Normalizer.allowedb text
  /\ Forall Normalizer.allowed (Normalizer.normalize text)
  /\ (forall c, In c (Normalizer.normalize text)
                <-> In c text /\ Normalizer.allowed c)
  /\ (List.length (Normalizer.normalize text) <= List.length text)%nat.
Proof.
  rewrite NormalizerFacts.normalize_filter.
  split; [reflexivity|].
  split.
  - apply Forall_forall. intros c Hc.
    apply filter_In in Hc. now apply NormalizerFacts.allowedb_spec.
  - split.
    + intros c. rewrite filter_In, NormalizerFacts.allowedb_spec. tauto.
    + apply filter_length_le.
Qed.

(** C9: normalization is idempotent. *)
Theorem normalize_idempotent (x : str) :
  Normalizer.normalize (Normalizer.normalize x) = Normalizer.normalize x.
Proof.
  rewrite !NormalizerFacts.normalize_filter.
  induction x as [|c x IH]; simpl; [reflexivity|].
  destruct (Normalizer.allowedb c) eqn:E; simpl; [rewrite E, IH|]; auto.
Qed.

(** Punctuation and blanks leave no separator behind: ["ab, c d!"] becomes
    ["abcd"]. *)
Example normalize_joins_words :
  Normalizer.normalize (lit "ab, c d!") = lit "abcd".
Proof. reflexivity. Qed.

(* ================================================================== *)
(** * The frequency aggregator *)

(** C4: the aggregator skips every token of length exactly 1, so no such
    token has an entry, and counts every other token: one more occurrence
    adds one to the token's count, which is 1 at its first occurrence. *)
Theorem word_counts_skips_single_chars (words : list str) :
  (forall w, len w = 1 ->
     PyDict.get (Aggregator.word_counts words) w = None
     /\ Aggregator.word_counts (words ++ [w]) = Aggregator.word_counts words)
  /\ (forall w, len w <> 1 ->
        PyDict.get (Aggregator.word_counts (words ++ [w])) w
        = Some (PyDict.get_default (Aggregator.word_counts words) w 0 + 1)
        /\ (~ In w words ->
            PyDict.get (Aggregator.word_counts (words ++ [w])) w = Some 1)
        /\ forall w', w' <> w ->
             PyDict.get (Aggregator.word_counts (words ++ [w])) w'
             = PyDict.get (Aggregator.word_counts words) w')
  /\ (forall w, len w <> 1 -> In w words ->
        PyDict.get (Aggregator.word_counts words) w
        = Some (Z.of_nat (count_occ str_eq_dec words w))).
Proof.
  split; [|split].
  - intros w Hw. apply Z.eqb_eq in Hw. split.
    + rewrite AggregatorFacts.word_counts_get.
      unfold Aggregator.counted. now rewrite Hw.
    + rewrite AggregatorFacts.word_counts_snoc.
      unfold Aggregator.count_word. now rewrite Hw.
  - intros w Hw. apply Z.eqb_neq in Hw.
    rewrite AggregatorFacts.word_counts_snoc.
    unfold Aggregator.count_word. rewrite Hw.
    split; [apply PyDictFacts.get_set_same|]. split.
    + intros Hnin. rewrite PyDictFacts.get_set_same.
      unfold PyDict.get_default.
      rewrite AggregatorFacts.word_counts_get.
      apply (count_occ_not_In str_eq_dec) in Hnin. rewrite Hnin.
      now rewrite andb_false_r.
    + intros w' Hne. apply PyDictFacts.get_set_other. congruence.
  - intros w Hw Hin. rewrite AggregatorFacts.word_counts_get.
    unfold Aggregator.counted.
    apply Z.eqb_neq in Hw. rewrite Hw. simpl.
    apply (count_occ_In str_eq_dec) in Hin.
    replace (0 <? count_occ str_eq_dec words w)%nat with true; [reflexivity|].
    symmetry. apply Nat.ltb_lt. lia.
Qed.

(** For every token sequence, empty tokens included: the counts add up to
    the number of tokens whose length is not 1, no key has length 1, every
    count is positive, and the keys are distinct. *)
Lemma word_counts_invariant (words : list str) :
  PyList.sum (PyDict.values (Aggregator.word_counts words))
  = Z.of_nat (List.length (filter (fun w => negb (len w =? 1)) words))
  /\ Forall (fun k => len k <> 1) (PyDict.keys (Aggregator.word_counts words))
  /\ Forall (fun v => 0 < v) (PyDict.values (Aggregator.word_counts words))
  /\ PyDict.wf (Aggregator.word_counts words).
Proof.
  split; [apply AggregatorFacts.word_counts_sum|].
  split; [|split].
  - apply Forall_forall. intros k Hk.
    now apply AggregatorFacts.word_counts_keys in Hk.
  - apply AggregatorFacts.word_counts_positive.
  - apply AggregatorFacts.word_counts_wf.
Qed.

(** C3: for every sequence of tokens as the segmenter emits them, none of
    them empty, the counts of the table add up to the number of tokens of
    length 2 or more, every key has length 2 or more, and every count is a
    positive integer. *)
Theorem word_counts_invariant_nonempty (words : list str) :
  Forall (fun w => w <> []) words ->
  PyList.sum (PyDict.values (Aggregator.word_counts words))
  = Z.of_nat (List.length (filter (fun w => 2 <=? len w) words))
  /\ Forall (fun k => 2 <= len k) (PyDict.keys (Aggregator.word_counts words))
  /\ Forall (fun v => 0 < v) (PyDict.values (Aggregator.word_counts words)).
Proof.
  intros Hne. split; [|split].
  - rewrite AggregatorFacts.word_counts_sum. do 2 f_equal.
    apply filter_ext_in. intros w Hw.
    rewrite Forall_forall in Hne. specialize (Hne w Hw).
    unfold Aggregator.counted, len. destruct w as [|c w]; [congruence|].
    simpl List.length.
    destruct (Z.of_nat (S (List.length w)) =? 1) eqn:E1;
      destruct (2 <=? Z.of_nat (S (List.length w))) eqn:E2;
      try reflexivity;
      rewrite ?Z.eqb_eq, ?Z.eqb_neq, ?Z.leb_le, ?Z.leb_gt in *; lia.
  - apply Forall_forall. intros k Hk.
    apply AggregatorFacts.word_counts_keys in Hk. destruct Hk as [Hin Hlen].
    rewrite Forall_forall in Hne. specialize (Hne k Hin).
    unfold len in *. destruct k as [|c k]; [congruence|].
    simpl List.length in *. lia.
  - apply AggregatorFacts.word_counts_positive.
Qed.

Lemma word_counts_invariant_nonempty_witness :
  let words := [ lit "ab"; lit "c"; lit "ab"; lit "def" ] in
  Aggregator.word_counts words = [ (lit "ab", 2); (lit "def", 1) ]
  /\ PyList.sum (PyDict.values (Aggregator.word_counts words))
     = Z.of_nat (List.length (filter (fun w => 2 <=? len w) words)).
Proof.
  split; [reflexivity|].
  apply (word_counts_invariant_nonempty
           [ lit "ab"; lit "c"; lit "ab"; lit "def" ]).
  repeat constructor; discriminate.
Defined.

(* ================================================================== *)
(** * Top-N selection *)

(** C2: for a table and a count [n] of entries asked for, [get_top_counts]
    returns [min n |table|] entries, hence at most that many, taken from the
    table, in descending order of count; and for each count, the entries it
    returns with that count are the first ones of the table with that count,
    in the table's insertion order. *)
Theorem get_top_counts_sorted_stable (table : dict Z) (n : Z) :
  PyDict.wf table -> 0 <= n ->
  let top := PyDict.items (Aggregator.get_top_counts table n) in
  Z.of_nat (List.length top) = Z.min n (Z.of_nat (List.length table))
  /\ Z.of_nat (List.length top) <= Z.min n (Z.of_nat (List.length table))
  /\ incl top (PyDict.items table)
  /\ StronglySorted (fun a b => snd b <= snd a) top
  /\ forall c, exists later,
       filter (Aggregator.has_count c) (PyDict.items table)
       = filter (Aggregator.has_count c) top ++ later.
Proof.
  intros Hwf Hn. unfold PyDict.items.
  rewrite TopFacts.get_top_counts_slice by exact Hwf.
  rewrite PyListFacts.slice_to_nonneg by exact Hn.
  set (sorted := PyList.sorted_desc snd table).
  assert (Hperm : Permutation sorted table)
    by apply PyListFacts.sorted_desc_perm.
  assert (Hlen : Z.of_nat (List.length (firstn (Z.to_nat n) sorted))
                 = Z.min n (Z.of_nat (List.length table))).
  { rewrite length_firstn, (Permutation_length Hperm). lia. }
  cbv zeta. split; [exact Hlen|]. split; [lia|]. split; [|split].
  - intros kv Hkv. apply (Permutation_in _ Hperm).
    rewrite <- (firstn_skipn (Z.to_nat n) sorted).
    apply in_or_app. now left.
  - pose proof (PyListFacts.sorted_desc_sorted snd table) as Hs.
    fold sorted in Hs. rewrite <- (firstn_skipn (Z.to_nat n) sorted) in Hs.
    apply PyListFacts.StronglySorted_prefix in Hs. exact Hs.
  - intros c. exists (filter (Aggregator.has_count c) (skipn (Z.to_nat n) sorted)).
    rewrite <- (PyListFacts.filter_firstn_prefix _ (Z.to_nat n) sorted).
    symmetry. apply (PyListFacts.sorted_desc_stable snd c table).
Qed.

Lemma get_top_counts_sorted_stable_witness :
  let table := [ (lit "ab", 2); (lit "cd", 3); (lit "ef", 2); (lit "gh", 1) ] in
  PyDict.items (Aggregator.get_top_counts table 2)
  = [ (lit "cd", 3); (lit "ab", 2) ]
  /\ Z.of_nat (List.length (PyDict.items (Aggregator.get_top_counts table 2)))
     = Z.min 2 (Z.of_nat (List.length table)).
Proof.
  split; [reflexivity|].
  apply (get_top_counts_sorted_stable
           [ (lit "ab", 2); (lit "cd", 3); (lit "ef", 2); (lit "gh", 1) ] 2).
  - unfold PyDict.wf. simpl.
    repeat (constructor; [simpl; intuition discriminate|]). constructor.
  - lia.
Defined.

(** C7: the counts of the top-N entries add up to at most the counts of the
    whole table, and to exactly as much when [n >= |table|]. *)
Theorem get_top_counts_sum_le (table : dict Z) (n : Z) :
  Aggregator.frequency_table table ->
  PyList.sum (PyDict.values (Aggregator.get_top_counts table n))
  <= PyList.sum (PyDict.values table)
  /\ (Z.of_nat (List.length table) <= n ->
      PyList.sum (PyDict.values (Aggregator.get_top_counts table n))
      = PyList.sum (PyDict.values table)).
Proof.
  intros [Hwf Hpos].
  rewrite TopFacts.get_top_counts_slice by exact Hwf.
  set (sorted := PyList.sorted_desc snd table).
  assert (Hperm : Permutation sorted table)
    by apply PyListFacts.sorted_desc_perm.
  assert (Hsum : PyList.sum (PyDict.values sorted)
                 = PyList.sum (PyDict.values table)).
  { apply PyListFacts.sum_perm. now apply Permutation_map. }
  split.
  - destruct (PyListFacts.slice_to_prefix sorted n) as [k ->].
    rewrite <- Hsum. unfold PyDict.values. rewrite <- firstn_map.
    apply TopFacts.sum_firstn_le.
    apply Forall_map. apply (Permutation_Forall (Permutation_sym Hperm)).
    eapply Forall_impl; [|exact Hpos]. simpl. intros. lia.
  - intros Hn. rewrite PyListFacts.slice_to_all; [exact Hsum|].
    rewrite (Permutation_length Hperm). exact Hn.
Qed.

Lemma get_top_counts_sum_le_witness :
  let table := [ (lit "ab", 2); (lit "cd", 3); (lit "ef", 2) ] in
  PyList.sum (PyDict.values (Aggregator.get_top_counts table 2)) = 5
  /\ PyList.sum (PyDict.values table) = 7
  /\ PyList.sum (PyDict.values (Aggregator.get_top_counts table 2))
     <= PyList.sum (PyDict.values table).
Proof.
  split; [reflexivity|]. split; [reflexivity|].
  apply (get_top_counts_sum_le [ (lit "ab", 2); (lit "cd", 3); (lit "ef", 2) ] 2).
  split.
  - unfold PyDict.wf. simpl.
    repeat (constructor; [simpl; intuition discriminate|]). constructor.
  - repeat constructor.
Defined.

(* ================================================================== *)
(** * The funnel adapter *)

Module FloatFacts.

Lemma two_neq_0 : ~ (2 == 0)%Q.
Proof. intros H. discriminate H. Qed.

Lemma Qlog2_le (a : Q) : (0 < a)%Q -> (2 ^ Qlog2 a <= a)%Q.
Proof.
  intros Ha. unfold Qlog2.
  destruct (Qle_bool _ a) eqn:E; [now apply Qle_bool_iff|]. clear E.
  destruct a as [n d]. simpl Qnum. simpl Qden.
  assert (Hn : 0 < n) by (unfold Qlt in Ha; simpl in Ha; lia).
  pose proof (Z.log2_spec n Hn) as [Hln _].
  pose proof (Z.log2_spec (Z.pos d) (Pos2Z.is_pos d)) as [_ Hld].
  pose proof (Z.log2_nonneg n) as Hn0.
  pose proof (Z.log2_nonneg (Z.pos d)) as Hd0.
  replace (Z.log2 n - Z.log2 (Z.pos d) - 1)
    with (Z.log2 n - Z.succ (Z.log2 (Z.pos d))) by lia.
  rewrite Qpower_minus by exact two_neq_0.
  change 2%Q with (inject_Z 2).
  rewrite <- !Zpower_Qpower by lia.
  rewrite (Qmake_Qdiv n d).
  assert (HB : (0 < inject_Z (2 ^ Z.succ (Z.log2 (Z.pos d))))%Q).
  { change 0%Q with (inject_Z 0). rewrite <- Zlt_Qlt. lia. }
  assert (HD : (0 < inject_Z (Z.pos d))%Q).
  { change 0%Q with (inject_Z 0). rewrite <- Zlt_Qlt. lia. }
  apply Qle_shift_div_l; [exact HD|].
  unfold Qdiv. rewrite <- Qmult_assoc, (Qmult_comm (/ _)), Qmult_assoc.
  apply Qle_shift_div_r; [exact HB|].
  rewrite <- !inject_Z_mult, <- Zle_Qle. nia.
Qed.

Lemma round_half_even_near (x : Q) :
  (x - (1 # 2) <= inject_Z (round_half_even x) <= x + (1 # 2))%Q.
Proof.
  unfold round_half_even.
  pose proof (Qfloor_le x) as Hlo.
  pose proof (Qlt_floor x) as Hhi.
  rewrite inject_Z_plus in Hhi. change (inject_Z 1) with 1%Q in Hhi.
  destruct (x - inject_Z (Qfloor x) ?= 1 # 2)%Q eqn:E.
  - apply Qeq_alt in E.
    destruct (Z.even (Qfloor x)); rewrite ?inject_Z_plus;
      change (inject_Z 1) with 1%Q; lra.
  - apply Qlt_alt in E. lra.
  - apply Qgt_alt in E. rewrite inject_Z_plus.
    change (inject_Z 1) with 1%Q. lra.
Qed.

Lemma round_half_even_nonneg (x : Q) :
  (0 <= x)%Q -> 0 <= round_half_even x.
Proof.
  intros Hx. assert (Hf : 0 <= Qfloor x).
  { change 0 with (Qfloor 0). now apply Qfloor_resp_le. }
  unfold round_half_even.
  destruct (x - inject_Z (Qfloor x) ?= 1 # 2)%Q; [|lia|lia].
  destruct (Z.even (Qfloor x)); lia.
Qed.

Lemma eta_small : (0 < eta /\ eta <= unit_roundoff)%Q.
Proof. split; [reflexivity|]. unfold Qle. vm_compute. discriminate. Qed.

(** Rounding a number between 0 and 1024 to binary64 gives a finite float,
    off by at most half a step. *)
Lemma binary64_near (x : Q) :
  (0 <= x)%Q -> (x <= 1024)%Q ->
  exists y,
    binary64 x = Finite y
    /\ (0 <= y)%Q
    /\ (x - (x * unit_roundoff + eta) <= y
        <= x + (x * unit_roundoff + eta))%Q.
Proof.
  intros H0 H1. unfold binary64.
  destruct (Qeq_bool x 0) eqn:Ez.
  - apply Qeq_bool_iff in Ez. exists 0%Q. split; [reflexivity|].
    destruct eta_small. unfold unit_roundoff in *. split; lra.
  - apply Qeq_bool_neq in Ez.
    assert (Hpos : (0 < x)%Q).
    { destruct (Qlt_le_dec 0 x); [assumption|]. exfalso. apply Ez. lra. }
    assert (Hsign : (Qnum x <? 0) = false).
    { apply Z.ltb_ge. unfold Qle in H0. simpl in H0. lia. }
    rewrite Hsign.
    pose proof (Qabs_pos x H0) as Ha.
    set (a := Qabs x) in *.
    assert (Hapos : (0 < a)%Q) by lra.
    pose proof (Qlog2_le a Hapos) as HL.
    set (e := Z.max (-1074) (Qlog2 a - 52)).
    set (P := (2 ^ e)%Q).
    assert (HP : (0 < P)%Q) by (apply Qpower_0_lt; reflexivity).
    assert (HPe : (P * (1 # 2) <= a * unit_roundoff + eta)%Q).
    { unfold P, e.
      destruct (Z.max_spec (-1074) (Qlog2 a - 52)) as [[_ ->]|[_ ->]].
      - replace (Qlog2 a - 52) with (Qlog2 a + (-52)) by lia.
        rewrite Qpower_plus by exact two_neq_0.
        assert (E : (2 ^ (-52) * (1 # 2) == unit_roundoff)%Q) by reflexivity.
        destruct eta_small.
        assert ((2 ^ Qlog2 a * unit_roundoff <= a * unit_roundoff)%Q)
          by (apply Qmult_le_compat_r; [exact HL|discriminate]).
        rewrite <- Qmult_assoc, E. lra.
      - assert (E : (2 ^ (-1074) * (1 # 2) == eta)%Q) by reflexivity.
        rewrite E.
        assert ((0 <= a * unit_roundoff)%Q)
          by (apply Qmult_le_0_compat; [lra|discriminate]).
        lra. }
    set (z := (a / P)%Q).
    assert (Hz : (z * P == a)%Q) by (unfold z; field; lra).
    pose proof (round_half_even_near z) as [Hlo Hhi].
    assert (Hm : 0 <= round_half_even z).
    { apply round_half_even_nonneg. unfold z.
      apply Qle_shift_div_l; [exact HP|lra]. }
    set (t := inject_Z (round_half_even z)) in *.
    assert (Ht : (0 <= t)%Q).
    { unfold t. change 0%Q with (inject_Z 0). now rewrite <- Zle_Qle. }
    assert (Hd1 : ((t - z) * P <= (1 # 2) * P)%Q)
      by (apply Qmult_le_compat_r; lra).
    assert (Hd2 : ((z - t) * P <= (1 # 2) * P)%Q)
      by (apply Qmult_le_compat_r; lra).
    assert (Hy0 : (0 <= t * P)%Q) by (apply Qmult_le_0_compat; lra).
    destruct eta_small as [He0 Heu].
    unfold unit_roundoff in *.
    destruct (Qle_bool (2 ^ 1024) (t * P)) eqn:Eo.
    + apply Qle_bool_iff in Eo. exfalso.
      assert (Hbig : (4096 < 2 ^ 1024)%Q) by reflexivity.
      lra.
    + eexists. split; [reflexivity|].
      rewrite Qred_correct. split; [exact Hy0|]. split; lra.
Qed.

End FloatFacts.

Module ChartFacts.

Import FloatFacts.

(** A count between 0 and a positive total gets a percentage: a finite
    float, within the tolerance of the exact percentage. *)
Lemma percentage_near (total_count count : Z) :
  0 < total_count -> 0 <= count <= total_count ->
  exists p,
    percentage total_count count = Ok (Finite p)
    /\ (0 <= p)%Q
    /\ (share total_count count - tolerance <= p
        <= share total_count count + tolerance)%Q.
Proof.
  intros HT [Hc0 HcT].
  assert (HTq : (0 < inject_Z total_count)%Q)
    by (change 0%Q with (inject_Z 0); now rewrite <- Zlt_Qlt).
  unfold share.
  set (x := (inject_Z count / inject_Z total_count)%Q).
  assert (Hx0 : (0 <= x)%Q).
  { unfold x. apply Qle_shift_div_l; [exact HTq|].
    rewrite Qmult_0_l. change 0%Q with (inject_Z 0). now rewrite <- Zle_Qle. }
  assert (Hx1 : (x <= 1)%Q).
  { unfold x. apply Qle_shift_div_r; [exact HTq|].
    rewrite Qmult_1_l. now rewrite <- Zle_Qle. }
  destruct eta_small as [He0 Heu]. unfold unit_roundoff in Heu.
  unfold percentage, truediv.
  replace (total_count =? 0) with false by (symmetry; apply Z.eqb_neq; lia).
  fold x.
  destruct (binary64_near x) as [q [-> [Hq0 Hq]]]; [lra|lra|].
  unfold unit_roundoff in Hq. simpl rbind. unfold fmul.
  destruct (binary64_near (q * 100)) as [y [-> [Hy0 Hy]]]; [lra|lra|].
  unfold unit_roundoff in Hy. unfold round2.
  pose proof (round_half_even_near (y * 100)) as Hr.
  pose proof (round_half_even_nonneg (y * 100)) as Hr0.
  assert (Hr0' : (0 <= inject_Z (round_half_even (y * 100)))%Q).
  { change 0%Q with (inject_Z 0). rewrite <- Zle_Qle. apply Hr0. lra. }
  set (r := inject_Z (round_half_even (y * 100))) in *.
  unfold Qdiv at 1. change (/ 100)%Q with (1 # 100)%Q.
  destruct (binary64_near (r * (1 # 100))) as [p [-> [Hp0 Hp]]]; [lra|lra|].
  unfold unit_roundoff in Hp. exists p. split; [reflexivity|].
  split; [exact Hp0|]. unfold tolerance. split; lra.
Qed.

(** With a total of 0 the first entry, if there is one, raises. *)
Lemma funnel_data_zero (top_counts : dict Z) (counts : list Z) :
  PyList.sum counts = 0 ->
  funnel_data top_counts counts
  = match top_counts with [] => Ok [] | _ :: _ => Raise ZeroDivisionError end.
Proof.
  intros H. unfold funnel_data, PyDict.items. rewrite H.
  destruct top_counts as [|[w c] d]; reflexivity.
Qed.

Lemma percentage_nonzero (total_count count : Z) :
  total_count <> 0 -> percentage total_count count <> Raise ZeroDivisionError.
Proof.
  intros H. apply Z.eqb_neq in H. unfold percentage, truediv. rewrite H.
  assert (Hr : forall x, round2 x <> Raise ZeroDivisionError).
  { intros x. unfold round2. destruct x as [q| |]; try discriminate.
    destruct (binary64 (inject_Z (round_half_even (q * 100)) / 100));
      discriminate. }
  destruct (binary64 (inject_Z count / inject_Z total_count)) as [q| |];
    simpl; try discriminate; apply Hr.
Qed.

(** With another total no division by zero is raised. *)
Lemma funnel_data_nonzero (top_counts : dict Z) (counts : list Z) :
  PyList.sum counts <> 0 ->
  funnel_data top_counts counts <> Raise ZeroDivisionError.
Proof.
  intros H. unfold funnel_data, PyDict.items.
  induction top_counts as [|[w c] d IH]; simpl; [discriminate|].
  pose proof (percentage_nonzero (PyList.sum counts) c H) as Hp.
  destruct (percentage (PyList.sum counts) c) as [p|e]; simpl.
  - destruct (comprehension _ d) as [ys|e]; simpl; [discriminate|exact IH].
  - congruence.
Qed.

(** Counts between 0 and a positive total all get their percentages. *)
Lemma funnel_data_in_range (top_counts : dict Z) (counts : list Z) :
  0 < PyList.sum counts ->
  Forall (fun kv => 0 <= snd kv <= PyList.sum counts) top_counts ->
  exists percentages : list Q,
    funnel_data top_counts counts
    = Ok (combine (PyDict.keys top_counts) (map Finite percentages))
    /\ Forall2
         (fun kv p =>
            percentage (PyList.sum counts) (snd kv) = Ok (Finite p)
            /\ (0 <= p)%Q
            /\ (share (PyList.sum counts) (snd kv) - tolerance <= p
                <= share (PyList.sum counts) (snd kv) + tolerance)%Q)
         top_counts percentages.
Proof.
  intros HT Hall. unfold funnel_data, PyDict.items.
  induction Hall as [|[w c] d Hc _ IH]; simpl.
  - exists []. split; [reflexivity|constructor].
  - destruct (percentage_near (PyList.sum counts) c HT Hc) as [p [Hp Hb]].
    destruct IH as [ps [-> Hps]].
    exists (p :: ps). rewrite Hp. simpl. split; [reflexivity|].
    constructor; [|exact Hps]. simpl. tauto.
Qed.

Lemma share_sum (total_count : Z) (top_counts : dict Z) :
  total_count <> 0 ->
  (Qsum (map (fun kv => share total_count (snd kv)) top_counts)
   == 100 * inject_Z (PyList.sum (PyDict.values top_counts))
      / inject_Z total_count)%Q.
Proof.
  intros H.
  assert (Hq : ~ (inject_Z total_count == 0)%Q).
  { intros E. apply H. now apply (inject_Z_injective total_count 0). }
  induction top_counts as [|[w c] d IH]; simpl.
  - change (PyList.sum []) with 0. field. exact Hq.
  - rewrite PyListFacts.sum_cons, inject_Z_plus, IH. unfold share.
    fold (PyDict.values d). field. exact Hq.
Qed.

(** Percentages that are each within the tolerance add up to the exact
    percentages within the tolerance per entry. *)
Lemma sum_near (total_count : Z) (top_counts : dict Z) (percentages : list Q) :
  Forall2
    (fun kv p =>
       (share total_count (snd kv) - tolerance <= p
        <= share total_count (snd kv) + tolerance)%Q)
    top_counts percentages ->
  (Qsum (map (fun kv => share total_count (snd kv)) top_counts)
   - inject_Z (Z.of_nat (List.length percentages)) * tolerance
   <= Qsum percentages
   <= Qsum (map (fun kv => share total_count (snd kv)) top_counts)
      + inject_Z (Z.of_nat (List.length percentages)) * tolerance)%Q.
Proof.
  induction 1 as [|kv p d ps Hp _ IH].
  - cbn [List.length map Qsum]. change (inject_Z (Z.of_nat 0)) with 0%Q. lra.
  - cbn [List.length map Qsum].
    rewrite Nat2Z.inj_succ, <- Z.add_1_r, inject_Z_plus.
    change (inject_Z 1) with 1%Q. lra.
Qed.

End ChartFacts.

(** The model rounds as Python does: [round(23 / 160 * 100, 2)] is 14.37,
    the float below 14.375, and [round(1 / 3 * 100, 2)] is the float nearest
    to 33.33. *)
Example percentage_23_of_160 :
  percentage 160 23 = Ok (Finite (8089590830664253 # 562949953421312)).
Proof. vm_compute. reflexivity. Qed.

Example percentage_87_of_160 :
  percentage 160 87 = Ok (Finite (7651897241879183 # 140737488355328)).
Proof. vm_compute. reflexivity. Qed.

Example percentage_overflow :
  percentage 1 (10 ^ 400) = Raise OverflowError.
Proof. vm_compute. reflexivity. Qed.

Example binary64_tenth :
  binary64 (1 # 10) = Finite (3602879701896397 # 36028797018963968).
Proof. vm_compute. reflexivity. Qed.

(** Below the smallest subnormal the quotient rounds to zero or to one
    step. *)
Example truediv_underflow :
  truediv 1 (2 ^ 1075) = Ok (Finite 0)
  /\ truediv 3 (2 ^ 1075) = truediv 1 (2 ^ 1073).
Proof. split; vm_compute; reflexivity. Qed.

(** C6, as the code has it: for a top-20 count list with a positive sum and
    displayed counts between 0 and that sum, the funnel data has one value
    per displayed word, [round(count / sum(counts) * 100, 2)] computed on
    floats, with the sum of the full list as denominator; each value is
    within the tolerance (0.005 for the rounding to 2 decimals, [2 ^ -44] for
    the floats) of the exact percentage, and so their sum is
    [100 * (sum of displayed counts) / (sum of the full list)] up to the
    tolerance per displayed entry. *)
Theorem funnel_percentages_sum (top_counts : dict Z) (counts : list Z) :
  0 < PyList.sum counts ->
  Forall (fun kv => 0 <= snd kv <= PyList.sum counts) top_counts ->
  exists percentages : list Q,
    funnel_data top_counts counts
    = Ok (combine (PyDict.keys top_counts) (map Finite percentages))
    /\ Forall2
         (fun kv p =>
            percentage (PyList.sum counts) (snd kv) = Ok (Finite p)
            /\ (share (PyList.sum counts) (snd kv) - tolerance <= p
                <= share (PyList.sum counts) (snd kv) + tolerance)%Q)
         top_counts percentages
    /\ (let exact :=
          100 * inject_Z (PyList.sum (PyDict.values top_counts))
          / inject_Z (PyList.sum counts) in
        let slack :=
          inject_Z (Z.of_nat (List.length percentages)) * tolerance in
        exact - slack <= Qsum percentages <= exact + slack)%Q.
Proof.
  intros HT Hall.
  destruct (ChartFacts.funnel_data_in_range top_counts counts HT Hall)
    as [ps [Hdata Hps]].
  exists ps. split; [exact Hdata|]. split.
  - eapply Forall2_impl; [|exact Hps]. simpl. tauto.
  - cbv zeta.
    rewrite <- (ChartFacts.share_sum (PyList.sum counts) top_counts)
      by lia.
    apply ChartFacts.sum_near.
    eapply Forall2_impl; [|exact Hps]. simpl. tauto.
Qed.

Lemma funnel_percentages_sum_witness :
  exists percentages,
    funnel_data [ (lit "ab", 3); (lit "cd", 1) ] [ 3; 1; 4 ]
    = Ok (combine [ lit "ab"; lit "cd" ] (map Finite percentages))
    /\ List.length percentages = 2%nat.
Proof.
  destruct (funnel_percentages_sum [ (lit "ab", 3); (lit "cd", 1) ] [ 3; 1; 4 ])
    as [ps [Hd [Hall _]]].
  - reflexivity.
  - repeat constructor; vm_compute; discriminate.
  - exists ps. split; [exact Hd|].
    symmetry. exact (Forall2_length Hall).
Defined.

(** The two percentages of that example are 37.5 and 12.5. *)
Example funnel_three_quarters :
  funnel_data [ (lit "ab", 3); (lit "cd", 1) ] [ 3; 1; 4 ]
  = Ok [ (lit "ab", Finite (75 # 2)); (lit "cd", Finite (25 # 2)) ].
Proof. vm_compute. reflexivity. Qed.

(** C6 as stated fails on three words that occur once each: every percentage
    is the float nearest to 33.33, below 33.34, and the three add up to less
    than [100 * 3 / 3]. *)
Lemma funnel_thirds_sum_9999 :
  let top_counts := [ (lit "ab", 1); (lit "cd", 1); (lit "ef", 1) ] in
  let counts := [ 1; 1; 1 ] in
  exists p,
    funnel_data top_counts counts
    = Ok [ (lit "ab", Finite p); (lit "cd", Finite p); (lit "ef", Finite p) ]
    /\ binary64 (3333 # 100) = Finite p
    /\ (Qsum [ p; p; p ] < 9999 # 100)%Q
    /\ ~ (Qsum [ p; p; p ]
          == 100 * inject_Z (PyList.sum (PyDict.values top_counts))
             / inject_Z (PyList.sum counts))%Q.
Proof.
  eexists. split; [vm_compute; reflexivity|].
  split; [vm_compute; reflexivity|].
  split; [reflexivity|]. vm_compute. discriminate.
Qed.

(** C10, as the code has it: the funnel adapter raises the division error
    exactly when the counts add up to 0 and there is at least one word to
    display, and then renders nothing; with no word to display nothing is
    divided, and a funnel chart with empty data is rendered. *)
Theorem funnel_raises_iff_zero_total_and_entries
    (top_counts : dict Z) (words : list str) (counts : list Z) :
  (App.display_customized_chart top_counts words counts
     = ([], Raise ZeroDivisionError)
   <-> PyList.sum counts = 0 /\ top_counts <> [])
  /\ (top_counts = [] ->
      App.display_customized_chart top_counts words counts
      = ([App.EChart (FunnelChart [] words)], Ok tt)).
Proof.
  unfold App.display_customized_chart, App.bind, App.lift, App.st_echarts,
    App.emit.
  split.
  - destruct (Z.eq_dec (PyList.sum counts) 0) as [Hz|Hnz].
    + rewrite ChartFacts.funnel_data_zero by exact Hz.
      destruct top_counts as [|kv d]; simpl.
      * split; [discriminate|tauto].
      * split; [intros _; split; [exact Hz|discriminate]|reflexivity].
    + pose proof (ChartFacts.funnel_data_nonzero top_counts counts Hnz) as H.
      destruct (funnel_data top_counts counts) as [data|e]; simpl.
      * split; [discriminate|tauto].
      * split; [intros [= ->]; congruence|tauto].
  - intros ->. reflexivity.
Qed.

(** C10 as stated fails when there is nothing to display: with an empty
    table, as for a page without countable words, the counts are empty and
    the adapter renders an empty funnel instead of raising. *)
Lemma funnel_empty_table_renders :
  PyList.sum [] = 0
  /\ funnel_data [] [] = Ok []
  /\ App.display_customized_chart [] [] []
     = ([App.EChart (FunnelChart [] [])], Ok tt).
Proof. repeat split. Qed.

(* ================================================================== *)
(** * The image lister *)

Module AppFacts.

Import App.

Section Images.
Variables (urlopen_read : str -> result bytes)
          (st_image : bytes -> str -> result unit).



End Images.


End AppFacts.




(* ================================================================== *)
(** * Further properties of the pipeline *)

Module OrderFacts.

Import PyStrFacts PyDictFacts AggregatorFacts.

(** The count a table gives a word, 0 when the word has no entry. *)
Lemma word_counts_get_default (words : list str) (w : str) :
  PyDict.get_default (Aggregator.word_counts words) w 0
  = if Aggregator.counted w
    then Z.of_nat (count_occ str_eq_dec words w) else 0.
Proof.
  unfold PyDict.get_default. rewrite word_counts_get.
  destruct (Aggregator.counted w); simpl; [|reflexivity].
  destruct (0 <? count_occ str_eq_dec words w)%nat eqn:E; [reflexivity|].
  apply Nat.ltb_ge in E. lia.
Qed.

Lemma count_occ_perm (l1 l2 : list str) (w : str) :
  Permutation l1 l2 ->
  count_occ str_eq_dec l1 w = count_occ str_eq_dec l2 w.
Proof.
  induction 1 as [|x l1 l2 _ IH|x y l|l1 l2 l3 _ IH1 _ IH2]; simpl.
  - reflexivity.
  - now rewrite IH.
  - destruct (str_eq_dec y w), (str_eq_dec x w); reflexivity.
  - congruence.
Qed.

End OrderFacts.

(** X1: the keys of the table are the counted tokens in the order of their
    first occurrence, each once. *)
Theorem word_counts_keys_first_occurrence (words : list str) :
  PyDict.keys (Aggregator.word_counts words)
  = rev (nodup str_eq_dec (rev (filter Aggregator.counted words))).
Proof.
  induction words as [|w words IH] using rev_ind; [reflexivity|].
  rewrite AggregatorFacts.word_counts_snoc, filter_app. simpl.
  unfold Aggregator.count_word.
  assert (Hkeys : forall k,
             In k (PyDict.keys (Aggregator.word_counts words))
             <-> In k (rev (filter Aggregator.counted words))).
  { intros k. rewrite AggregatorFacts.word_counts_keys, <- in_rev, filter_In.
    unfold Aggregator.counted. rewrite negb_true_iff, Z.eqb_neq. tauto. }
  destruct (Aggregator.counted w) eqn:C; unfold Aggregator.counted in C;
    [apply negb_true_iff in C|apply negb_false_iff in C]; rewrite C.
  2: now rewrite app_nil_r.
  - rewrite PyDictFacts.keys_set, rev_app_distr. simpl.
    destruct (in_dec str_eq_dec w (PyDict.keys (Aggregator.word_counts words)))
      as [Hin|Hnin];
      destruct (in_dec str_eq_dec w (rev (filter Aggregator.counted words)))
        as [Hin'|Hnin']; simpl; rewrite ?IH; try reflexivity.
    + apply Hkeys in Hin. contradiction.
    + apply Hkeys in Hin'. contradiction.
Qed.

(** X2: counting is additive over concatenation, and the count of a word
    does not depend on the order of the tokens (only the order of the keys
    does). *)
Theorem word_counts_additive (words1 words2 : list str) (w : str) :
  PyDict.get_default (Aggregator.word_counts (words1 ++ words2)) w 0
  = PyDict.get_default (Aggregator.word_counts words1) w 0
    + PyDict.get_default (Aggregator.word_counts words2) w 0
  /\ (Permutation words1 words2 ->
      PyDict.get (Aggregator.word_counts words1) w
      = PyDict.get (Aggregator.word_counts words2) w).
Proof.
  split.
  - rewrite !OrderFacts.word_counts_get_default, count_occ_app.
    destruct (Aggregator.counted w); lia.
  - intros Hperm. rewrite !AggregatorFacts.word_counts_get.
    now rewrite (OrderFacts.count_occ_perm _ _ w Hperm).
Qed.

Lemma word_counts_additive_witness :
  PyDict.get (Aggregator.word_counts [ lit "ab"; lit "cd"; lit "ab" ]) (lit "ab")
  = PyDict.get (Aggregator.word_counts [ lit "cd"; lit "ab"; lit "ab" ]) (lit "ab").
Proof.
  apply (proj2 (word_counts_additive
                  [ lit "ab"; lit "cd"; lit "ab" ]
                  [ lit "cd"; lit "ab"; lit "ab" ] (lit "ab"))).
  apply perm_swap.
Defined.

(** X3: normalization distributes over concatenation: normalizing a text
    piece by piece gives the same as normalizing it whole. *)
Theorem normalize_app (text1 text2 : str) :
  Normalizer.normalize (text1 ++ text2)
  = Normalizer.normalize text1 ++ Normalizer.normalize text2.
Proof.
  unfold Normalizer.normalize, Normalizer.re_sub. apply flat_map_app.
Qed.

(** X4: a text is left unchanged by normalization exactly when all its
    characters are in the allowed alphabet. *)
Theorem normalize_fixed_iff (text : str) :
  Normalizer.normalize text = text <-> Forall Normalizer.allowed text.
Proof.
  rewrite NormalizerFacts.normalize_filter. split.
  - intros H. rewrite <- H. apply Forall_forall. intros c Hc.
    apply filter_In in Hc. now apply NormalizerFacts.allowedb_spec.
  - induction 1 as [|c text Hc _ IH]; simpl; [reflexivity|].
    apply NormalizerFacts.allowedb_spec in Hc. rewrite Hc. now f_equal.
Qed.

Module SelectFacts.

Import PyStrFacts PyListFacts PyDictFacts TopFacts.

(** Sorting a list that is already in descending order changes nothing. *)
Lemma sorted_desc_fixed (A : Type) (key : A -> Z) (l : list A) :
  StronglySorted (PyList.desc key) l -> PyList.sorted_desc key l = l.
Proof.
  induction 1 as [|x l _ IH Hx]; simpl; [reflexivity|].
  rewrite IH. destruct l as [|y l]; simpl; [reflexivity|].
  inversion Hx as [|? ? Hy _]; subst. unfold PyList.desc in Hy.
  destruct (key x <? key y) eqn:E; [|reflexivity].
  apply Z.ltb_lt in E. lia.
Qed.

Lemma StronglySorted_cross (A : Type) (R : A -> A -> Prop) (l1 l2 : list A) :
  StronglySorted R (l1 ++ l2) ->
  forall a b, In a l1 -> In b l2 -> R a b.
Proof.
  induction l1 as [|x l1 IH]; simpl; intros Hs a b Ha Hb; [contradiction|].
  apply StronglySorted_inv in Hs. destruct Hs as [Hs Hx].
  destruct Ha as [<-|Ha]; [|now apply IH].
  rewrite Forall_forall in Hx. apply Hx. apply in_or_app. now right.
Qed.

Lemma In_get (V : Type) (d : dict V) (k : str) (v : V) :
  PyDict.wf d -> In (k, v) d -> PyDict.get d k = Some v.
Proof.
  unfold PyDict.wf. induction d as [|[k' v'] d IH]; simpl; [tauto|].
  intros Hnd [Heq|Hin].
  - injection Heq as -> ->. now rewrite eqb_refl.
  - inversion Hnd as [|? ? Hk Hd]; subst.
    destruct (PyStr.eqb k' k) eqn:E; [|now apply IH].
    apply eqb_eq in E. subst. exfalso. apply Hk.
    change k with (fst (k, v)). now apply in_map.
Qed.

Lemma firstn_wf (V : Type) (k : nat) (d : dict V) :
  PyDict.wf d -> PyDict.wf (firstn k d).
Proof.
  unfold PyDict.wf, PyDict.keys. rewrite <- firstn_map. apply NoDup_firstn.
Qed.

Lemma sorted_wf (table : dict Z) :
  PyDict.wf table -> PyDict.wf (PyList.sorted_desc snd table).
Proof. apply sorted_keys_unique. Qed.

End SelectFacts.

Module AnalyseFacts.

Import App.

Section Analyse.
Variables (soup : Type) (requests_get : str -> result response)
          (BeautifulSoup : bytes -> result soup) (get_text : soup -> result str)
          (lcut : str -> result (list str)).

(** What [get_web_content] returns is the analysis of a fetched page that
    the parser and the segmenter accepted. *)
Lemma get_web_content_inv (url : str) (counts : dict Z)
    (top_words : list str) (top_counts : list Z) :
  get_web_content requests_get BeautifulSoup get_text lcut url
  = Ok (counts, top_words, top_counts) ->
  exists r page text words,
    requests_get url = Ok r
    /\ analyse BeautifulSoup get_text lcut r
       = Ok (counts, top_words, top_counts)
    /\ BeautifulSoup (content r) = Ok page
    /\ get_text page = Ok text
    /\ lcut (Normalizer.normalize text) = Ok words
    /\ counts = Aggregator.word_counts words
    /\ top_words = Aggregator.top_words (Aggregator.sorted_items counts)
    /\ top_counts = Aggregator.top_counts (Aggregator.sorted_items counts).
Proof.
  unfold get_web_content, rbind.
  destruct (requests_get url) as [r|e]; [|discriminate].
  intros H. exists r. revert H. unfold analyse, rbind.
  destruct (BeautifulSoup (content r)) as [page|e] eqn:HB; [|discriminate].
  destruct (get_text page) as [text|e] eqn:HT; [|discriminate].
  destruct (lcut (Normalizer.normalize text)) as [words|e] eqn:HL;
    [|discriminate].
  intros H. exists page, text, words. injection H as <- <- <-.
  repeat split; assumption.
Qed.

End Analyse.

End AnalyseFacts.

(** X5: the three values [get_web_content] returns agree: the top words and
    the top counts are the keys and the values, in order, of the top-20
    dictionary that [get_top_counts] cuts from the returned table. *)
Theorem get_web_content_columns
    (soup : Type) (requests_get : str -> result App.response)
    (BeautifulSoup : bytes -> result soup) (get_text : soup -> result str)
    (lcut : str -> result (list str))
    (url : str) (counts : dict Z) (top_words : list str) (top_counts : list Z) :
  App.get_web_content requests_get BeautifulSoup get_text lcut url
  = Ok (counts, top_words, top_counts) ->
  top_words = PyDict.keys (Aggregator.get_top_counts counts 20)
  /\ top_counts = PyDict.values (Aggregator.get_top_counts counts 20)
  /\ combine top_words top_counts
     = PyDict.items (Aggregator.get_top_counts counts 20).
Proof.
  intros H.
  destruct (AnalyseFacts.get_web_content_inv _ _ _ _ _ _ _ _ _ H)
    as [r [page [text [words [_ [_ [_ [_ [_ [Hc [-> ->]]]]]]]]]]].
  rewrite Hc.
  set (table := Aggregator.word_counts words).
  rewrite TopFacts.get_top_counts_slice
    by apply AggregatorFacts.word_counts_wf.
  rewrite PyListFacts.slice_to_nonneg by lia.
  change (Z.to_nat 20) with 20%nat.
  rewrite TopFacts.top_words_firstn, TopFacts.top_counts_firstn.
  unfold Aggregator.sorted_items, PyDict.items, PyDict.keys, PyDict.values.
  repeat split.
  induction (firstn 20 (PyList.sorted_desc snd table)) as [|[k v] l IH];
    simpl; [reflexivity|now rewrite IH].
Qed.

Lemma get_web_content_columns_witness :
  combine [ lit "NotFound" ] [ 1 ]
  = PyDict.items (Aggregator.get_top_counts [ (lit "NotFound", 1) ] 20).
Proof.
  apply (get_web_content_columns
           Fixture.soup Fixture.requests_get_404 Fixture.BeautifulSoup
           Fixture.get_text Fixture.lcut (lit "http://example.org/missing")
           [ (lit "NotFound", 1) ] [ lit "NotFound" ] [ 1 ]).
  reflexivity.
Defined.

(** X6: whatever the page, [get_web_content] returns at most 20 top words
    and as many top counts: the words are distinct, none has length 1, and
    the counts are positive and in descending order; there are 20 of them
    unless the table has fewer words. *)
Theorem get_web_content_top_shape
    (soup : Type) (requests_get : str -> result App.response)
    (BeautifulSoup : bytes -> result soup) (get_text : soup -> result str)
    (lcut : str -> result (list str))
    (url : str) (counts : dict Z) (top_words : list str) (top_counts : list Z) :
  App.get_web_content requests_get BeautifulSoup get_text lcut url
  = Ok (counts, top_words, top_counts) ->
  List.length top_words = Nat.min 20 (List.length counts)
  /\ List.length top_counts = List.length top_words
  /\ NoDup top_words
  /\ Forall (fun w => len w <> 1) top_words
  /\ Forall (fun c => 0 < c) top_counts
  /\ StronglySorted (fun a b => b <= a) top_counts.
Proof.
  intros H.
  destruct (AnalyseFacts.get_web_content_inv _ _ _ _ _ _ _ _ _ H)
    as [r [page [text [words [_ [_ [_ [_ [_ [Hc [-> ->]]]]]]]]]]].
  rewrite Hc. clear H Hc counts.
  set (counts := Aggregator.word_counts words).
  rewrite TopFacts.top_words_firstn, TopFacts.top_counts_firstn.
  unfold Aggregator.sorted_items, PyDict.items.
  set (sorted := PyList.sorted_desc snd counts).
  assert (Hperm : Permutation sorted counts)
    by apply PyListFacts.sorted_desc_perm.
  pose proof (AggregatorFacts.word_counts_wf words) as Hwf.
  fold counts in Hwf.
  split; [|split; [|split; [|split; [|split]]]].
  - rewrite length_map, length_firstn, (Permutation_length Hperm). reflexivity.
  - now rewrite !length_map.
  - apply (SelectFacts.firstn_wf Z 20%nat). now apply SelectFacts.sorted_wf.
  - apply Forall_forall. intros w Hw.
    apply in_map_iff in Hw. destruct Hw as [[k v] [<- Hin]].
    assert (Hk : In (k, v) counts).
    { apply (Permutation_in _ Hperm).
      rewrite <- (firstn_skipn 20 sorted). apply in_or_app. now left. }
    apply (in_map fst) in Hk.
    now apply AggregatorFacts.word_counts_keys in Hk.
  - apply Forall_forall. intros c Hc.
    apply in_map_iff in Hc. destruct Hc as [[k v] [<- Hin]].
    assert (Hk : In (k, v) counts).
    { apply (Permutation_in _ Hperm).
      rewrite <- (firstn_skipn 20 sorted). apply in_or_app. now left. }
    pose proof (AggregatorFacts.word_counts_positive words) as Hpos.
    rewrite Forall_forall in Hpos. apply Hpos.
    fold counts. now apply (in_map snd) in Hk.
  - pose proof (PyListFacts.sorted_desc_sorted snd counts) as Hs.
    fold sorted in Hs. rewrite <- (firstn_skipn 20 sorted) in Hs.
    apply PyListFacts.StronglySorted_prefix in Hs.
    induction Hs as [|kv l _ IH Hkv]; simpl; constructor; [exact IH|].
    apply Forall_map. exact Hkv.
Qed.

Lemma get_web_content_top_shape_witness :
  List.length [ lit "NotFound" ]
  = Nat.min 20 (List.length [ (lit "NotFound", 1) ]).
Proof.
  apply (get_web_content_top_shape
           Fixture.soup Fixture.requests_get_404 Fixture.BeautifulSoup
           Fixture.get_text Fixture.lcut (lit "http://example.org/missing")
           [ (lit "NotFound", 1) ] [ lit "NotFound" ] [ 1 ]).
  reflexivity.
Defined.

(** X7: the entries [get_top_counts] keeps are the highest ones and keep
    their counts: every entry of the table that is left out has a count no
    larger than any entry kept, and a word found in the result has the count
    it has in the table. *)
Theorem get_top_counts_highest (table : dict Z) (n : Z) :
  PyDict.wf table -> 0 <= n ->
  let top := Aggregator.get_top_counts table n in
  (forall kept left_out,
     In kept (PyDict.items top) -> In left_out (PyDict.items table) ->
     ~ In left_out (PyDict.items top) -> snd left_out <= snd kept)
  /\ (forall k v, PyDict.get top k = Some v -> PyDict.get table k = Some v).
Proof.
  intros Hwf Hn. cbv zeta. unfold PyDict.items.
  rewrite TopFacts.get_top_counts_slice by exact Hwf.
  rewrite PyListFacts.slice_to_nonneg by exact Hn.
  set (sorted := PyList.sorted_desc snd table).
  assert (Hperm : Permutation sorted table)
    by apply PyListFacts.sorted_desc_perm.
  pose proof (PyListFacts.sorted_desc_sorted snd table) as Hs.
  fold sorted in Hs. rewrite <- (firstn_skipn (Z.to_nat n) sorted) in Hs.
  split.
  - intros kept left_out Hkept Hin Hout.
    apply (SelectFacts.StronglySorted_cross _ _ _ _ Hs kept left_out Hkept).
    apply (Permutation_in _ (Permutation_sym Hperm)) in Hin.
    rewrite <- (firstn_skipn (Z.to_nat n) sorted) in Hin.
    apply in_app_or in Hin. tauto.
  - intros k v Hget. apply SelectFacts.In_get; [exact Hwf|].
    apply PyDictFacts.get_Some_In in Hget.
    apply (Permutation_in _ Hperm).
    rewrite <- (firstn_skipn (Z.to_nat n) sorted). apply in_or_app. now left.
Qed.

Lemma get_top_counts_highest_witness :
  let table := [ (lit "ab", 2); (lit "cd", 3); (lit "ef", 1) ] in
  PyDict.get (Aggregator.get_top_counts table 2) (lit "ab") = Some 2
  /\ PyDict.get table (lit "ab") = Some 2.
Proof.
  split; [reflexivity|].
  apply (get_top_counts_highest
           [ (lit "ab", 2); (lit "cd", 3); (lit "ef", 1) ] 2).
  - unfold PyDict.wf. simpl.
    repeat (constructor; [simpl; intuition discriminate|]). constructor.
  - lia.
  - reflexivity.
Defined.

(** X8: a negative [num] does not select "no entry": the slice counts from
    the end, so [get_top_counts] drops the last [-num] entries of the sorted
    table and returns the others, none when the table has at most [-num]. *)
Theorem get_top_counts_negative (table : dict Z) (num : Z) :
  PyDict.wf table -> num < 0 ->
  PyDict.items (Aggregator.get_top_counts table num)
  = firstn (List.length table - Z.to_nat (- num))
           (Aggregator.sorted_items table)
  /\ Z.of_nat (List.length (Aggregator.get_top_counts table num))
     = Z.max 0 (Z.of_nat (List.length table) + num).
Proof.
  intros Hwf Hneg. unfold PyDict.items, Aggregator.sorted_items.
  rewrite TopFacts.get_top_counts_slice by exact Hwf.
  set (sorted := PyList.sorted_desc snd table).
  assert (Hlen : List.length sorted = List.length table).
  { apply Permutation_length. apply PyListFacts.sorted_desc_perm. }
  unfold PyList.slice_to, PyDict.items. apply Z.ltb_lt in Hneg as Hb.
  rewrite Hb, Hlen.
  replace (Z.to_nat (Z.max 0 (num + Z.of_nat (List.length table))))
    with (List.length table - Z.to_nat (- num))%nat by lia.
  split; [reflexivity|].
  rewrite length_firstn, Hlen. lia.
Qed.

Lemma get_top_counts_negative_witness :
  let table := [ (lit "ab", 2); (lit "cd", 3); (lit "ef", 1) ] in
  PyDict.items (Aggregator.get_top_counts table (-1))
  = [ (lit "cd", 3); (lit "ab", 2) ]
  /\ Z.of_nat (List.length (Aggregator.get_top_counts table (-1)))
     = Z.max 0 (Z.of_nat (List.length table) + -1).
Proof.
  split; [reflexivity|].
  apply (get_top_counts_negative
           [ (lit "ab", 2); (lit "cd", 3); (lit "ef", 1) ] (-1)).
  - unfold PyDict.wf. simpl.
    repeat (constructor; [simpl; intuition discriminate|]). constructor.
  - lia.
Defined.

(** X9: selecting twice is selecting once with the smaller number: the
    top [m] of the top [n] of a table are the top [min n m] of the table. *)
Theorem get_top_counts_compose (table : dict Z) (n m : Z) :
  PyDict.wf table -> 0 <= n -> 0 <= m ->
  Aggregator.get_top_counts (Aggregator.get_top_counts table n) m
  = Aggregator.get_top_counts table (Z.min n m).
Proof.
  intros Hwf Hn Hm.
  rewrite (@TopFacts.get_top_counts_slice table n) by exact Hwf.
  rewrite (@TopFacts.get_top_counts_slice table (Z.min n m)) by exact Hwf.
  rewrite !PyListFacts.slice_to_nonneg by lia.
  set (sorted := PyList.sorted_desc snd table).
  assert (Hwf' : PyDict.wf (firstn (Z.to_nat n) sorted)).
  { apply SelectFacts.firstn_wf. now apply SelectFacts.sorted_wf. }
  rewrite TopFacts.get_top_counts_slice by exact Hwf'.
  rewrite PyListFacts.slice_to_nonneg by exact Hm.
  unfold PyDict.items. rewrite SelectFacts.sorted_desc_fixed.
  - rewrite firstn_firstn. f_equal. lia.
  - pose proof (PyListFacts.sorted_desc_sorted snd table) as Hs.
    fold sorted in Hs. rewrite <- (firstn_skipn (Z.to_nat n) sorted) in Hs.
    now apply PyListFacts.StronglySorted_prefix in Hs.
Qed.

Lemma get_top_counts_compose_witness :
  let table := [ (lit "ab", 2); (lit "cd", 3); (lit "ef", 1) ] in
  Aggregator.get_top_counts (Aggregator.get_top_counts table 2) 1
  = Aggregator.get_top_counts table (Z.min 2 1).
Proof.
  apply (get_top_counts_compose
           [ (lit "ab", 2); (lit "cd", 3); (lit "ef", 1) ] 2 1).
  - unfold PyDict.wf. simpl.
    repeat (constructor; [simpl; intuition discriminate|]). constructor.
  - lia.
  - lia.
Defined.

(* ================================================================== *)
(** * Further properties of the display functions *)

Module GalleryFacts.

Import App.

Section Gallery.
Variables (urlopen_read : str -> result bytes)
          (st_image : bytes -> str -> result unit).

(** One turn of the loop shows one image or one warning and goes on, or
    shows nothing and raises the missing-key error. *)
Lemma display_image_cases (img : tag) :
  (exists item,
     display_image urlopen_read st_image img = ([item], Ok tt)
     /\ quiet item = true)
  \/ (PyDict.get (attrs img) (lit "src") = None
      /\ display_image urlopen_read st_image img
         = ([], Raise (KeyError (lit "src")))).
Proof.
  unfold display_image, tag_getitem.
  destruct (PyDict.get (attrs img) (lit "src")) as [img_url|] eqn:G.
  - left. unfold lift, bind, try_except, emit, quiet.
    destruct (urlopen_read img_url) as [image|e]; simpl; [|eauto].
    destruct (st_image image img_url) as [[]|e]; simpl; eauto.
  - right. split; reflexivity.
Qed.

Lemma for_each_shape (images : list tag) :
  let log := fst (for_each images (display_image urlopen_read st_image)) in
  let r := snd (for_each images (display_image urlopen_read st_image)) in
  forallb quiet log = true
  /\ (r = Ok tt /\ List.length log = List.length images
      \/ r = Raise (KeyError (lit "src"))
         /\ (List.length log < List.length images)%nat).
Proof.
  induction images as [|img images IH]; simpl.
  - split; [reflexivity|]. left. split; reflexivity.
  - destruct (display_image_cases img) as [[item [-> Hq]]|[_ ->]]; simpl.
    + destruct (for_each images (display_image urlopen_read st_image))
        as [log r]. simpl in *. rewrite Hq. simpl.
      destruct IH as [Hlog [[-> Hlen]|[-> Hlen]]];
        (split; [exact Hlog|]); [left|right]; (split; [reflexivity|lia]).
    + split; [reflexivity|]. right. split; [reflexivity|lia].
Qed.

(** The loop stops at the first image without a source. *)
Lemma for_each_stops (before after : list tag) (img : tag) (urls : list str) :
  Forall2 (fun img url => tag_getitem img (lit "src") = Ok url) before urls ->
  PyDict.get (attrs img) (lit "src") = None ->
  exists shown,
    for_each (before ++ img :: after) (display_image urlopen_read st_image)
    = (shown, Raise (KeyError (lit "src")))
    /\ Forall2 (shows urlopen_read st_image) urls shown.
Proof.
  intros Hsrc Hnone.
  induction Hsrc as [|img0 url before urls Hsrc0 _ IH]; simpl.
  - exists []. split; [|constructor].
    unfold display_image, tag_getitem. rewrite Hnone. reflexivity.
  - destruct IH as [shown [-> Hshown]].
    unfold display_image at 1. rewrite Hsrc0.
    unfold lift, bind, try_except, emit, shows in *.
    destruct (urlopen_read url) as [image|e] eqn:U; simpl.
    + destruct (st_image image url) as [[]|e] eqn:S; simpl;
        eexists; (split; [reflexivity|]); constructor; auto;
        rewrite U, S; reflexivity.
    + eexists. split; [reflexivity|]. constructor; auto.
      rewrite U. reflexivity.
Qed.

Lemma quiet_no_chart (log : list event) :
  forallb quiet log = true ->
  filter is_chart log = [] /\ filter is_error_message log = [].
Proof.
  induction log as [|item log IH]; simpl; [auto|].
  intros H. apply andb_true_iff in H. destruct H as [Hq Hlog].
  destruct (IH Hlog) as [-> ->].
  destruct item; simpl in *; try discriminate; auto.
Qed.

End Gallery.

End GalleryFacts.

(** X10: whatever the page and the downloads, [display_images] either
    returns normally or raises the missing-key error for [src], never
    another exception; it writes one line (the heading, or the notice that
    there is no image, which is then the whole output) followed by at most
    one item per [img] tag, exactly one per tag when it returns normally;
    and it renders no chart and writes no error message. *)
Theorem display_images_shape
    (soup : Type) (find_all_img : soup -> list App.tag)
    (urlopen_read : str -> result bytes)
    (st_image : bytes -> str -> result unit) (page : soup) :
  let log :=
    fst (App.display_images find_all_img urlopen_read st_image page) in
  let r := snd (App.display_images find_all_img urlopen_read st_image page) in
  (r = Ok tt \/ r = Raise (KeyError (lit "src")))
  /\ (find_all_img page = [] -> log = [App.StWrite App.NoImages] /\ r = Ok tt)
  /\ (find_all_img page <> [] ->
      exists shown,
        log = App.StWrite App.ImagesHeader :: shown
        /\ (List.length shown <= List.length (find_all_img page))%nat
        /\ (r = Ok tt ->
            List.length shown = List.length (find_all_img page)))
  /\ filter App.is_chart log = []
  /\ filter App.is_error_message log = [].
Proof.
  cbv zeta. unfold App.display_images.
  destruct (find_all_img page) as [|img images] eqn:E.
  - simpl. repeat split; auto; congruence.
  - replace (0 <? List.length (img :: images))%nat with true by reflexivity.
    pose proof (GalleryFacts.for_each_shape urlopen_read st_image
                  (img :: images)) as H.
    cbv zeta in H. unfold App.bind, App.emit.
    destruct (App.for_each (img :: images)
                (App.display_image urlopen_read st_image)) as [log r].
    simpl fst in *. simpl snd in *.
    destruct H as [Hq Hr].
    destruct (GalleryFacts.quiet_no_chart log Hq) as [Hc He].
    split; [tauto|]. split; [discriminate|].
    split; [|simpl; rewrite Hc, He; auto].
    intros _. exists log. split; [reflexivity|].
    destruct Hr as [[-> Hlen]|[-> Hlen]]; split; try lia; auto; discriminate.
Qed.

(** X11: an [img] tag without a [src] attribute aborts the gallery: the
    images before it are shown (or warned about) in order, then the
    missing-key error leaves [display_images], and the images after it are
    never attempted. *)
Theorem display_images_missing_src
    (soup : Type) (find_all_img : soup -> list App.tag)
    (urlopen_read : str -> result bytes)
    (st_image : bytes -> str -> result unit)
    (page : soup) (before after : list App.tag) (img : App.tag)
    (urls : list str) :
  find_all_img page = before ++ img :: after ->
  Forall2 (fun img url => App.tag_getitem img (lit "src") = Ok url)
          before urls ->
  PyDict.get (App.attrs img) (lit "src") = None ->
  exists shown,
    App.display_images find_all_img urlopen_read st_image page
    = (App.StWrite App.ImagesHeader :: shown, Raise (KeyError (lit "src")))
    /\ Forall2 (App.shows urlopen_read st_image) urls shown.
Proof.
  intros Hpage Hsrc Hnone.
  destruct (GalleryFacts.for_each_stops urlopen_read st_image
              before after img urls Hsrc Hnone) as [shown [Hrun Hshown]].
  exists shown. split; [|exact Hshown].
  unfold App.display_images. rewrite Hpage.
  replace (0 <? List.length (before ++ img :: after))%nat with true.
  - unfold App.bind, App.emit. rewrite Hrun. reflexivity.
  - symmetry. apply Nat.ltb_lt. rewrite length_app. simpl. lia.
Qed.

Lemma display_images_missing_src_witness :
  App.display_images Fixture.find_img_missing_src Fixture.urlopen_read
    Fixture.st_image (lit "page")
  = ([ App.StWrite App.ImagesHeader;
       App.Image (list_byte_of_string "PNG") (lit "a.png") ],
     Raise (KeyError (lit "src"))).
Proof.
  destruct (display_images_missing_src
              Fixture.soup Fixture.find_img_missing_src Fixture.urlopen_read
              Fixture.st_image (lit "page")
              [ Fixture.img "a.png" ] [ Fixture.img "c.png" ] (App.Tag [])
              [ lit "a.png" ]) as [shown [Hrun _]].
  - reflexivity.
  - repeat constructor.
  - reflexivity.
  - reflexivity.
Defined.

(* ================================================================== *)
(** * The fetch-tokenize-render cycle *)

Module RunFacts.

Import App.

(** In [run] the funnel adapter gets a list and a mapping cut from the same
    table, so a zero total means there is nothing to display. *)
Lemma zero_total_empty_top (words : list str) :
  let counts := Aggregator.word_counts words in
  PyList.sum (Aggregator.top_counts (Aggregator.sorted_items counts)) = 0 ->
  Aggregator.get_top_counts counts 20 = [].
Proof.
  cbv zeta. set (counts := Aggregator.word_counts words).
  rewrite TopFacts.top_counts_firstn.
  rewrite TopFacts.get_top_counts_slice
    by apply AggregatorFacts.word_counts_wf.
  rewrite PyListFacts.slice_to_nonneg by lia.
  unfold Aggregator.sorted_items, PyDict.items.
  pose proof (PyListFacts.sorted_desc_perm snd counts) as Hperm.
  pose proof (AggregatorFacts.word_counts_positive words) as Hpos.
  fold counts in Hpos. unfold PyDict.values in Hpos.
  rewrite Forall_map in Hpos.
  apply (Permutation_Forall (Permutation_sym Hperm)) in Hpos.
  destruct (PyList.sorted_desc snd counts) as [|kv sorted]; [reflexivity|].
  change (Z.to_nat 20) with (S 19). rewrite !firstn_cons. cbn [map].
  rewrite PyListFacts.sum_cons. intros Hsum. exfalso.
  inversion Hpos as [|? ? Hkv Hrest]; subst.
  simpl in Hkv.
  assert (0 <= PyList.sum (map snd (firstn 19 sorted))); [|lia].
  apply PyListFacts.sum_nonneg. apply Forall_map.
  rewrite <- (firstn_skipn 19 sorted) in Hrest.
  apply Forall_app in Hrest. destruct Hrest as [Hrest _].
  eapply Forall_impl; [|exact Hrest]. simpl. intros. lia.
Qed.

(** What [run] hands to the funnel adapter: the mapping and the list hold
    the same 20 entries. *)
Lemma run_columns (words : list str) :
  let counts := Aggregator.word_counts words in
  let items := Aggregator.sorted_items counts in
  Aggregator.get_top_counts counts 20 = firstn 20 items
  /\ Aggregator.top_words items = PyDict.keys (firstn 20 items)
  /\ Aggregator.top_counts items = PyDict.values (firstn 20 items).
Proof.
  cbv zeta.
  rewrite TopFacts.get_top_counts_slice
    by apply AggregatorFacts.word_counts_wf.
  rewrite PyListFacts.slice_to_nonneg by lia.
  rewrite TopFacts.top_words_firstn, TopFacts.top_counts_firstn.
  repeat split.
Qed.

(** Positive counts lie between 0 and their sum. *)
Lemma positive_in_range (d : dict Z) :
  Forall (fun kv => 0 < snd kv) d ->
  Forall (fun kv => 0 <= snd kv <= PyList.sum (PyDict.values d)) d.
Proof.
  induction 1 as [|kv d Hkv Hd IH]; [constructor|].
  simpl. rewrite PyListFacts.sum_cons.
  assert (Hs : 0 <= PyList.sum (PyDict.values d)).
  { apply PyListFacts.sum_nonneg. apply Forall_map.
    eapply Forall_impl; [|exact Hd]. simpl. intros. lia. }
  constructor; [fold (PyDict.values d); lia|].
  eapply Forall_impl; [|exact IH]. simpl. fold (PyDict.values d).
  intros. lia.
Qed.

Lemma hundred_percent (top : dict Z) :
  PyList.sum (PyDict.values top) <> 0 ->
  (Qsum (map (fun kv => share (PyList.sum (PyDict.values top)) (snd kv)) top)
   == 100)%Q.
Proof.
  intros H. rewrite (ChartFacts.share_sum _ top H).
  assert (Hq : ~ (inject_Z (PyList.sum (PyDict.values top)) == 0)%Q).
  { intros E. apply H.
    now apply (inject_Z_injective (PyList.sum (PyDict.values top)) 0). }
  field. exact Hq.
Qed.

(** The funnel data of a run: no division fails, there is one percentage
    per top word, and for a table that is not empty the percentages add up
    to 100 within the tolerance per entry. *)
Lemma run_funnel_data (words : list str) :
  let counts := Aggregator.word_counts words in
  let items := Aggregator.sorted_items counts in
  exists percentages : list Q,
    funnel_data (Aggregator.get_top_counts counts 20)
                (Aggregator.top_counts items)
    = Ok (combine (Aggregator.top_words items) (map Finite percentages))
    /\ List.length percentages = List.length (Aggregator.top_words items)
    /\ (counts <> [] ->
        let slack :=
          inject_Z (Z.of_nat (List.length percentages)) * tolerance in
        100 - slack <= Qsum percentages <= 100 + slack)%Q.
Proof.
  cbv zeta.
  destruct (run_columns words) as [Htop [Hw Hc]].
  pose proof (zero_total_empty_top words) as Hzero. cbv zeta in *.
  set (counts := Aggregator.word_counts words) in *.
  set (items := Aggregator.sorted_items counts) in *.
  assert (Hperm : Permutation items counts)
    by apply PyListFacts.sorted_desc_perm.
  assert (Hpos : Forall (fun kv => 0 < snd kv) (firstn 20 items)).
  { pose proof (AggregatorFacts.word_counts_positive words) as Hp.
    fold counts in Hp. unfold PyDict.values in Hp. rewrite Forall_map in Hp.
    apply (Permutation_Forall (Permutation_sym Hperm)) in Hp.
    rewrite <- (firstn_skipn 20 items) in Hp.
    now apply Forall_app in Hp. }
  rewrite Htop, Hw, Hc in *.
  destruct (Z.eq_dec (PyList.sum (PyDict.values (firstn 20 items))) 0)
    as [Hz|Hnz].
  - specialize (Hzero Hz). rewrite Hzero. exists [].
    split; [reflexivity|]. split; [reflexivity|].
    intros Hne. exfalso. apply Hne.
    destruct items as [|kv items]; [|discriminate].
    now apply Permutation_nil.
  - assert (HT : 0 < PyList.sum (PyDict.values (firstn 20 items))).
    { assert (0 <= PyList.sum (PyDict.values (firstn 20 items))); [|lia].
      apply PyListFacts.sum_nonneg. apply Forall_map.
      eapply Forall_impl; [|exact Hpos]. simpl. intros. lia. }
    destruct (ChartFacts.funnel_data_in_range
                (firstn 20 items) (PyDict.values (firstn 20 items)) HT
                (positive_in_range _ Hpos)) as [ps [Hdata Hps]].
    exists ps. split; [exact Hdata|]. split.
    + unfold PyDict.keys. rewrite length_map.
      symmetry. exact (Forall2_length Hps).
    + intros _. cbv zeta.
      rewrite <- (hundred_percent (firstn 20 items) Hnz).
      apply ChartFacts.sum_near.
      eapply Forall2_impl; [|exact Hps]. simpl. tauto.
Qed.

Section Cycle.
Variables (soup : Type) (requests_get : str -> result response)
          (BeautifulSoup : bytes -> result soup) (get_text : soup -> result str)
          (find_all_img : soup -> list tag) (lcut : str -> result (list str))
          (urlopen_read : str -> result bytes)
          (st_image : bytes -> str -> result unit).

(** The log of [display_images] is one line followed by images and
    warnings. *)
Lemma display_images_log (page : soup) :
  exists m shown r,
    display_images find_all_img urlopen_read st_image page
    = (StWrite m :: shown, r)
    /\ forallb quiet shown = true.
Proof using find_all_img urlopen_read st_image.
  unfold display_images.
  destruct (find_all_img page) as [|img images].
  - exists NoImages, [], (Ok tt). split; reflexivity.
  - replace (0 <? List.length (img :: images))%nat with true by reflexivity.
    pose proof (GalleryFacts.for_each_shape urlopen_read st_image
                  (img :: images)) as H.
    cbv zeta in H. unfold bind, emit.
    destruct (for_each (img :: images) (display_image urlopen_read st_image))
      as [log r]. destruct H as [H _].
    exists ImagesHeader, log, r. split; [reflexivity|exact H].
Qed.

(** The second fetch, the parse and the gallery are inside a [try]: they
    return normally, and render no chart. *)
Lemma guarded_images_total (url : str) :
  exists log,
    guarded_images requests_get BeautifulSoup find_all_img urlopen_read
      st_image url
    = (log, Ok tt)
    /\ filter is_chart log = [].
Proof using requests_get BeautifulSoup find_all_img urlopen_read st_image.
  unfold guarded_images, try_except, bind, lift, rbind, emit.
  destruct (requests_get url) as [r|e]; [|eexists; split; reflexivity].
  destruct (BeautifulSoup (content r)) as [page|e];
    [|eexists; split; reflexivity].
  destruct (display_images_log page) as [m [shown [res [-> Hq]]]].
  destruct (GalleryFacts.quiet_no_chart shown Hq) as [Hc _].
  destruct res as [[]|e]; eexists; (split; [reflexivity|]); simpl.
  - exact Hc.
  - rewrite filter_app, Hc. reflexivity.
Qed.

(** On the values [get_web_content] returns, the dispatch of [run] returns
    normally, with one chart or with no chart at all. *)
Lemma show_selected_total (words : list str) (url : str)
    (selected_option : option feature) :
  let counts := Aggregator.word_counts words in
  let items := Aggregator.sorted_items counts in
  exists shown,
    show_selected requests_get BeautifulSoup find_all_img urlopen_read
      st_image url selected_option counts
      (Aggregator.top_words items) (Aggregator.top_counts items)
    = (shown, Ok tt)
    /\ ((exists options, shown = [EChart options])
        \/ filter is_chart shown = []).
Proof using requests_get BeautifulSoup find_all_img urlopen_read st_image.
  cbv zeta. unfold show_selected.
  destruct selected_option as [[]|];
    try (eexists; split; [reflexivity|]; eauto; fail).
  - destruct (run_funnel_data words) as [ps [Hdata _]]. cbv zeta in Hdata.
    unfold display_customized_chart, bind, lift, st_echarts, emit.
    rewrite Hdata. eexists. split; [reflexivity|]. simpl. eauto.
  - destruct (guarded_images_total url) as [log [-> Hc]]. eauto.
Qed.

Lemma run_returned (url : str) (selected_option : option feature)
    (button : bool) (counts : dict Z) (top_words : list str)
    (top_counts : list Z) :
  get_web_content requests_get BeautifulSoup get_text lcut url
  = Ok (counts, top_words, top_counts) ->
  run requests_get BeautifulSoup get_text find_all_img lcut urlopen_read
    st_image url selected_option button
  = if button && negb (PyStr.eqb url [])
    then
      let shown :=
        show_selected requests_get BeautifulSoup find_all_img urlopen_read
          st_image url selected_option counts top_words top_counts in
      (Title :: fst shown, snd shown)
    else ([Title], Ok tt).
Proof using Type.
  intros H. unfold run. rewrite H.
  destruct button; [|reflexivity].
  destruct (negb (PyStr.eqb url [])); [|reflexivity].
  simpl. destruct (show_selected _ _ _ _ _ _ _ _ _ _) as [out res].
  reflexivity.
Qed.

Lemma run_raised (url : str) (selected_option : option feature)
    (button : bool) (e : exn) :
  get_web_content requests_get BeautifulSoup get_text lcut url = Raise e ->
  run requests_get BeautifulSoup get_text find_all_img lcut urlopen_read
    st_image url selected_option button
  = if button && negb (PyStr.eqb url [])
    then ([Title], Raise e) else ([Title], Ok tt).
Proof using Type.
  intros H. unfold run. rewrite H.
  destruct button; [|reflexivity].
  destruct (negb (PyStr.eqb url [])); reflexivity.
Qed.

(** Whenever [get_web_content] returns, [run] returns normally, with one
    chart or with no chart at all after the title. *)
Lemma run_after_content (url : str) (selected_option : option feature)
    (button : bool) (counts : dict Z) (top_words : list str)
    (top_counts : list Z) :
  get_web_content requests_get BeautifulSoup get_text lcut url
  = Ok (counts, top_words, top_counts) ->
  exists shown,
    run requests_get BeautifulSoup get_text find_all_img lcut urlopen_read
      st_image url selected_option button
    = (Title :: shown, Ok tt)
    /\ ((exists options, shown = [EChart options])
        \/ filter is_chart shown = []).
Proof using Type.
  intros H. rewrite (run_returned url selected_option button _ _ _ H).
  destruct (AnalyseFacts.get_web_content_inv _ _ _ _ _ _ _ _ _ H)
    as [r [page [text [words [_ [_ [_ [_ [_ [Hc [Hw Ht]]]]]]]]]]].
  destruct (button && negb (PyStr.eqb url [])); [|eauto].
  subst counts top_words top_counts.
  destruct (show_selected_total words url selected_option)
    as [shown [Hs Hshape]].
  cbv zeta in *. rewrite Hs. simpl. eauto.
Qed.

End Cycle.

End RunFacts.

(** C1, as the code has it: [run] never reads the status of the response.
    When the fetch returns a response, whatever its status, the body is
    processed as the page: two fetchers whose responses have the same body
    give the same run.  When the parser and the segmenter accept the body,
    no exception leaves [run], whichever feature is selected, and each chart
    feature renders, after the title and without any error message, exactly
    its chart of the words counted in the body. *)
Theorem run_ignores_status
    (soup : Type) (requests_get requests_get' : str -> result App.response)
    (BeautifulSoup : bytes -> result soup) (get_text : soup -> result str)
    (find_all_img : soup -> list App.tag) (lcut : str -> result (list str))
    (urlopen_read : str -> result bytes)
    (st_image : bytes -> str -> result unit)
    (url : str) (selected_option : option App.feature) (button : bool)
    (r r' : App.response) :
  requests_get url = Ok r ->
  requests_get' url = Ok r' ->
  App.content r = App.content r' ->
  let cycle get :=
    App.run get BeautifulSoup get_text find_all_img lcut urlopen_read st_image
      url selected_option button in
  cycle requests_get = cycle requests_get'
  /\ forall counts top_words top_counts,
       App.analyse BeautifulSoup get_text lcut r
       = Ok (counts, top_words, top_counts) ->
       (exists shown, cycle requests_get = (App.Title :: shown, Ok tt))
       /\ (url <> [] -> button = true ->
           let top_20_counts := Aggregator.get_top_counts counts 20 in
           let renders options :=
             cycle requests_get = ([App.Title; App.EChart options], Ok tt) in
           match selected_option with
           | Some App.ShowBar => renders (BarChart top_words top_counts)
           | Some App.ShowCloud =>
               renders (WordCloud (PyDict.items top_20_counts))
           | Some App.ShowPie =>
               renders (PieChart (PyDict.items top_20_counts))
           | Some App.ShowLine => renders (LineChart top_words top_counts)
           | Some App.ShowScatter =>
               renders (ScatterChart (PyDict.items top_20_counts) top_words)
           | Some App.ShowFunnel =>
               exists data,
                 funnel_data top_20_counts top_counts = Ok data
                 /\ renders (FunnelChart data top_words)
           | Some App.ShowArea => renders (AreaChart top_words top_counts)
           | Some App.ShowImages =>
               filter App.is_chart (fst (cycle requests_get)) = []
           | None =>
               cycle requests_get
               = ([App.Title; App.StWrite App.ChooseFeature], Ok tt)
           end).
Proof.
  intros Hr Hr' Hbody. cbv zeta. split.
  - unfold App.run, App.get_web_content, App.show_selected,
      App.guarded_images.
    rewrite Hr, Hr'. unfold rbind, App.analyse. rewrite Hbody. reflexivity.
  - intros counts top_words top_counts Ha.
    assert (Hg : App.get_web_content requests_get BeautifulSoup get_text lcut
                   url = Ok (counts, top_words, top_counts)).
    { unfold App.get_web_content. rewrite Hr. exact Ha. }
    split.
    + destruct (RunFacts.run_after_content
                  soup requests_get BeautifulSoup get_text find_all_img lcut
                  urlopen_read st_image url selected_option button
                  counts top_words top_counts Hg) as [shown [-> _]].
      eauto.
    + intros Hurl ->.
      rewrite (RunFacts.run_returned
                 soup requests_get BeautifulSoup get_text find_all_img lcut
                 urlopen_read st_image url selected_option true
                 counts top_words top_counts Hg).
      apply PyStrFacts.eqb_neq in Hurl. rewrite Hurl. simpl.
      destruct (AnalyseFacts.get_web_content_inv _ _ _ _ _ _ _ _ _ Hg)
        as [r0 [page [text [words [_ [_ [_ [_ [_ [Hc [Hw Ht]]]]]]]]]]].
      destruct selected_option as [[]|]; try reflexivity.
      * subst counts top_words top_counts.
        destruct (RunFacts.run_funnel_data words) as [ps [Hdata _]].
        cbv zeta in Hdata. eexists. split; [exact Hdata|].
        unfold App.show_selected, App.display_customized_chart, App.bind,
          App.lift, App.st_echarts, App.emit.
        rewrite Hdata. reflexivity.
      * unfold App.show_selected.
        destruct (RunFacts.guarded_images_total
                    soup requests_get BeautifulSoup find_all_img urlopen_read
                    st_image url) as [log [-> Hlog]].
        simpl. exact Hlog.
Qed.

Lemma run_ignores_status_witness :
  let cycle get :=
    App.run get Fixture.BeautifulSoup Fixture.get_text Fixture.find_three_img
      Fixture.lcut Fixture.urlopen_read Fixture.st_image
      (lit "http://example.org/missing") (Some App.ShowFunnel) true in
  cycle Fixture.requests_get_404 = cycle Fixture.requests_get_200
  /\ cycle Fixture.requests_get_404
     = ([App.Title;
         App.EChart (FunnelChart [ (lit "NotFound", Finite 100) ]
                                 [ lit "NotFound" ])], Ok tt).
Proof.
  split; [|vm_compute; reflexivity].
  exact (proj1 (run_ignores_status
                  Fixture.soup Fixture.requests_get_404 Fixture.requests_get_200
                  Fixture.BeautifulSoup Fixture.get_text Fixture.find_three_img
                  Fixture.lcut Fixture.urlopen_read Fixture.st_image
                  (lit "http://example.org/missing") (Some App.ShowFunnel) true
                  Fixture.not_found Fixture.found
                  eq_refl eq_refl eq_refl)).
Defined.

(** C1 as stated fails on a server that answers 404 with a body: the body is
    counted like any page, the bar chart is rendered, and no error message
    is written. *)
Lemma run_404_renders_chart :
  let cycle :=
    App.run Fixture.requests_get_404 Fixture.BeautifulSoup Fixture.get_text
      Fixture.find_three_img Fixture.lcut Fixture.urlopen_read Fixture.st_image
      (lit "http://example.org/missing") (Some App.ShowBar) true in
  Fixture.requests_get_404 (lit "http://example.org/missing")
  = Ok (App.Response 404 (list_byte_of_string "Not Found"))
  /\ cycle = ([App.Title; App.EChart (BarChart [ lit "NotFound" ] [ 1 ])], Ok tt)
  /\ filter App.is_error_message (fst cycle) = []
  /\ ~ (List.length (filter App.is_error_message (fst cycle)) = 1%nat
        /\ filter App.is_chart (fst cycle) = []).
Proof.
  repeat split. intros [H _]. vm_compute in H. discriminate.
Qed.

(** X12: an exception leaves [run] exactly when the button is pressed, the
    URL is not empty and [get_web_content] raises, that is when the fetch,
    the parser, the text extraction or the segmenter raises; it is then that exception, raised
    whatever feature is selected, and nothing but the title has been
    written: no error message replaces it.  Nothing after
    [get_web_content] raises out of [run]. *)
Theorem run_raises_iff_content_raises
    (soup : Type) (requests_get : str -> result App.response)
    (BeautifulSoup : bytes -> result soup) (get_text : soup -> result str)
    (find_all_img : soup -> list App.tag) (lcut : str -> result (list str))
    (urlopen_read : str -> result bytes)
    (st_image : bytes -> str -> result unit)
    (url : str) (selected_option : option App.feature) (button : bool)
    (e : exn) :
  let cycle :=
    App.run requests_get BeautifulSoup get_text find_all_img lcut urlopen_read
      st_image url selected_option button in
  (snd cycle = Raise e
   <-> button = true /\ url <> []
       /\ App.get_web_content requests_get BeautifulSoup get_text lcut url
          = Raise e)
  /\ (snd cycle = Raise e -> cycle = ([App.Title], Raise e)).
Proof.
  cbv zeta.
  destruct (App.get_web_content requests_get BeautifulSoup get_text lcut url)
    as [[[counts top_words] top_counts]|e'] eqn:Hg.
  - destruct (RunFacts.run_after_content
                soup requests_get BeautifulSoup get_text find_all_img lcut
                urlopen_read st_image url selected_option button
                counts top_words top_counts Hg) as [shown [-> _]].
    simpl. split; [split|]; try discriminate. intros [_ [_ H]]. discriminate.
  - rewrite (RunFacts.run_raised
               soup requests_get BeautifulSoup get_text find_all_img lcut
               urlopen_read st_image url selected_option button e' Hg).
    destruct button; simpl.
    + destruct (PyStr.eqb url []) eqn:U; simpl.
      * apply PyStrFacts.eqb_eq in U.
        split; [split|]; try discriminate. intros [_ [H _]]. contradiction.
      * apply PyStrFacts.eqb_neq in U.
        split; [split|].
        -- intros [= ->]. auto.
        -- intros [_ [_ [= ->]]]. reflexivity.
        -- intros [= ->]. reflexivity.
    + split; [split|]; try discriminate. intros [H _]. discriminate.
Qed.

(** X13: in every run the title comes first and is followed by exactly one
    chart or by output without any chart; and when the button is not
    pressed or the URL is empty the title is all there is, whatever the
    network would answer. *)
Theorem run_log_shape
    (soup : Type) (requests_get : str -> result App.response)
    (BeautifulSoup : bytes -> result soup) (get_text : soup -> result str)
    (find_all_img : soup -> list App.tag) (lcut : str -> result (list str))
    (urlopen_read : str -> result bytes)
    (st_image : bytes -> str -> result unit)
    (url : str) (selected_option : option App.feature) (button : bool) :
  let cycle :=
    App.run requests_get BeautifulSoup get_text find_all_img lcut urlopen_read
      st_image url selected_option button in
  (exists shown,
     fst cycle = App.Title :: shown
     /\ ((exists options, shown = [App.EChart options])
         \/ filter App.is_chart shown = []))
  /\ (button = false \/ url = [] -> cycle = ([App.Title], Ok tt)).
Proof.
  cbv zeta. split.
  - destruct (App.get_web_content requests_get BeautifulSoup get_text lcut url)
      as [[[counts top_words] top_counts]|e] eqn:Hg.
    + destruct (RunFacts.run_after_content
                  soup requests_get BeautifulSoup get_text find_all_img lcut
                  urlopen_read st_image url selected_option button
                  counts top_words top_counts Hg) as [shown [-> Hshown]].
      exists shown. split; [reflexivity|exact Hshown].
    + rewrite (RunFacts.run_raised
                 soup requests_get BeautifulSoup get_text find_all_img lcut
                 urlopen_read st_image url selected_option button e Hg).
      destruct (button && negb (PyStr.eqb url [])); simpl; eauto.
  - unfold App.run. intros [->| ->]; [reflexivity|].
    destruct button; reflexivity.
Qed.


(** X15: in [run] the funnel chart gets the same 20 entries as mapping and
    as list, so the design quirk of the denominator does not show: whenever
    [get_web_content] returns, the funnel chart is rendered, with one
    percentage per top word and no division error, and for a page with at
    least one counted word the percentages add up to 100 up to the tolerance
    per entry. *)
Theorem run_funnel_adds_up_to_100
    (soup : Type) (requests_get : str -> result App.response)
    (BeautifulSoup : bytes -> result soup) (get_text : soup -> result str)
    (find_all_img : soup -> list App.tag) (lcut : str -> result (list str))
    (urlopen_read : str -> result bytes)
    (st_image : bytes -> str -> result unit)
    (url : str) (counts : dict Z) (top_words : list str)
    (top_counts : list Z) :
  App.get_web_content requests_get BeautifulSoup get_text lcut url
  = Ok (counts, top_words, top_counts) ->
  url <> [] ->
  exists percentages : list Q,
    App.run requests_get BeautifulSoup get_text find_all_img lcut urlopen_read
      st_image url (Some App.ShowFunnel) true
    = ([App.Title;
        App.EChart
          (FunnelChart (combine top_words (map Finite percentages))
                       top_words)], Ok tt)
    /\ List.length percentages = List.length top_words
    /\ (counts <> [] ->
        let slack :=
          inject_Z (Z.of_nat (List.length percentages)) * tolerance in
        100 - slack <= Qsum percentages <= 100 + slack)%Q.
Proof.
  intros Hg Hurl.
  rewrite (RunFacts.run_returned
             soup requests_get BeautifulSoup get_text find_all_img lcut
             urlopen_read st_image url (Some App.ShowFunnel) true
             counts top_words top_counts Hg).
  apply PyStrFacts.eqb_neq in Hurl. rewrite Hurl. simpl.
  destruct (AnalyseFacts.get_web_content_inv _ _ _ _ _ _ _ _ _ Hg)
    as [r [page [text [words [_ [_ [_ [_ [_ [Hc [Hw Ht]]]]]]]]]]].
  subst counts top_words top_counts.
  destruct (RunFacts.run_funnel_data words) as [ps [Hdata [Hlen Hsum]]].
  cbv zeta in *. exists ps.
  unfold App.show_selected, App.display_customized_chart, App.bind,
    App.lift, App.st_echarts, App.emit.
  rewrite Hdata. simpl. split; [reflexivity|]. split; assumption.
Qed.

Lemma run_funnel_adds_up_to_100_witness :
  exists percentages,
    App.run Fixture.requests_get_404 Fixture.BeautifulSoup Fixture.get_text
      Fixture.find_three_img Fixture.lcut Fixture.urlopen_read Fixture.st_image
      (lit "http://example.org/missing") (Some App.ShowFunnel) true
    = ([App.Title;
        App.EChart
          (FunnelChart (combine [ lit "NotFound" ] (map Finite percentages))
                       [ lit "NotFound" ])], Ok tt)
    /\ List.length percentages = 1%nat.
Proof.
  destruct (run_funnel_adds_up_to_100
              Fixture.soup Fixture.requests_get_404 Fixture.BeautifulSoup
              Fixture.get_text Fixture.find_three_img Fixture.lcut
              Fixture.urlopen_read Fixture.st_image
              (lit "http://example.org/missing")
              [ (lit "NotFound", 1) ] [ lit "NotFound" ] [ 1 ])
    as [ps [Hrun [Hlen _]]].
  - reflexivity.
  - discriminate.
  - exists ps. split; [exact Hrun|exact Hlen].
Defined.

(** X16: with a segmenter that only cuts the text, returning pieces whose
    concatenation is the text it was given, every word of the table and
    every top word consists of allowed characters only: nothing the
    normalizer removed can come back. *)
Theorem table_words_allowed
    (soup : Type) (requests_get : str -> result App.response)
    (BeautifulSoup : bytes -> result soup) (get_text : soup -> result str)
    (lcut : str -> result (list str))
    (url : str) (counts : dict Z) (top_words : list str) (top_counts : list Z) :
  (forall text tokens, lcut text = Ok tokens -> List.concat tokens = text) ->
  App.get_web_content requests_get BeautifulSoup get_text lcut url
  = Ok (counts, top_words, top_counts) ->
  Forall (Forall Normalizer.allowed) (PyDict.keys counts)
  /\ Forall (Forall Normalizer.allowed) top_words.
Proof.
  intros Hcut Hg.
  destruct (AnalyseFacts.get_web_content_inv _ _ _ _ _ _ _ _ _ Hg)
    as [r [page [text0 [words [_ [_ [_ [Hx [Hl [Hc [Hw _]]]]]]]]]]].
  subst counts top_words.
  set (text := Normalizer.normalize text0) in *.
  assert (Hkeys : Forall (Forall Normalizer.allowed)
                    (PyDict.keys (Aggregator.word_counts words))).
  { apply Forall_forall. intros k Hk.
    apply AggregatorFacts.word_counts_keys in Hk. destruct Hk as [Hin _].
    apply Forall_forall. intros c Hc.
    assert (Htext : In c text).
    { rewrite <- (Hcut text words Hl). apply in_concat. eauto. }
    unfold text in Htext. rewrite NormalizerFacts.normalize_filter in Htext.
    apply filter_In in Htext. now apply NormalizerFacts.allowedb_spec. }
  split; [exact Hkeys|].
  rewrite TopFacts.top_words_firstn. apply Forall_forall. intros w Hw.
  rewrite Forall_forall in Hkeys. apply Hkeys.
  apply in_map_iff in Hw. destruct Hw as [kv [<- Hin]].
  apply in_map.
  apply (Permutation_in _ (PyListFacts.sorted_desc_perm snd _)).
  unfold Aggregator.sorted_items, PyDict.items in Hin.
  rewrite <- (firstn_skipn 20 (PyList.sorted_desc snd _)).
  apply in_or_app. left. exact Hin.
Qed.

Lemma table_words_allowed_witness :
  Forall (Forall Normalizer.allowed) [ lit "NotFound" ].
Proof.
  apply (table_words_allowed
           Fixture.soup Fixture.requests_get_404 Fixture.BeautifulSoup
           Fixture.get_text Fixture.lcut (lit "http://example.org/missing")
           [ (lit "NotFound", 1) ] [ lit "NotFound" ] [ 1 ]).
  - intros text tokens. unfold Fixture.lcut. intros [= <-].
    destruct text; simpl; [reflexivity|]. now rewrite app_nil_r.
  - reflexivity.
Defined.
